(** * The artifact resolution engine of [app.py]

    A shallow embedding of the Flask view [download_latest_files], of its four
    resolution handlers and of the link issuer [generate_sas_url], followed by
    the properties of the specification that were checked against them.

    Conventions of the embedding:
    - Python [str] values are [string]s; [None] is [None] of an [option].
    - The process environment, the clock, the blob storage service, pandas'
      CSV reader, the SAS signer and the two MongoDB collections are the
      fields of a [World]; the code is a function of the world it runs in.
    - A view runs in the monad [M]: it reads the clock, appends to the log and
      either returns a value or raises a Python exception. *)

From Stdlib Require Import ZArith List String Ascii Bool Lia.
Import ListNotations.
Local Open Scope Z_scope.
Local Open Scope string_scope.

Set Implicit Arguments.

(* ------------------------------------------------------------------------- *)
(** * Python primitives used by the source *)
(* ------------------------------------------------------------------------- *)

Module Py.

(** [needle in hay] for two [str] values. *)
Fixpoint str_in (needle hay : string) : bool :=
  String.prefix needle hay ||
  match hay with
  | EmptyString => false
  | String _ rest => str_in needle rest
  end.

(** An optional string seen through its truth value: [Some s] when it is
    truthy, [None] when it is falsy ([None] or ['']). *)
Definition truthy (v : option string) : option string :=
  match v with
  | Some s => if s =? "" then None else Some s
  | None => None
  end.

(** [f"{v}"] for a value that is a [str] or [None]. *)
Definition format (v : option string) : string :=
  match v with
  | Some s => s
  | None => "None"
  end.

(** [c.isspace()] on the ASCII range: TAB, LF, VT, FF, CR, FS, GS, RS, US
    and the space. *)
Definition isspace (c : ascii) : bool :=
  let n := nat_of_ascii c in
  ((9 <=? n)%nat && (n <=? 13)%nat) || ((28 <=? n)%nat && (n <=? 32)%nat).

Fixpoint lstrip (s : string) : string :=
  match s with
  | EmptyString => EmptyString
  | String c rest => if isspace c then lstrip rest else s
  end.

Fixpoint rstrip (s : string) : string :=
  match s with
  | EmptyString => EmptyString
  | String c rest =>
      match rstrip rest with
      | EmptyString => if isspace c then EmptyString else String c EmptyString
      | kept => String c kept
      end
  end.

(** [s.strip()] *)
Definition strip (s : string) : string := rstrip (lstrip s).

Definition lower_char (c : ascii) : ascii :=
  let n := nat_of_ascii c in
  if (65 <=? n)%nat && (n <=? 90)%nat then ascii_of_nat (n + 32) else c.

(** [s.lower()] on ASCII text: the letters A-Z are folded, every other
    character (all text outside ASCII included) is left as it is. *)
Fixpoint lower (s : string) : string :=
  match s with
  | EmptyString => EmptyString
  | String c rest => String (lower_char c) (lower rest)
  end.

(** The running maximum of [max(xs, key=key)]: a later element replaces the
    current one only when its key is strictly greater. *)
Fixpoint max_from {A : Type} (key : A -> Z) (best : A) (xs : list A) : A :=
  match xs with
  | [] => best
  | x :: rest => max_from key (if (key best <? key x)%Z then x else best) rest
  end.

(** [max(xs, key=key)]; [None] stands for the [ValueError] on an empty
    sequence. *)
Definition max {A : Type} (key : A -> Z) (xs : list A) : option A :=
  match xs with
  | [] => None
  | x :: rest => Some (max_from key x rest)
  end.

(** [d.get(k)] / [k in d] for a dict written as an association list. *)
Fixpoint dict_get {V : Type} (d : list (string * V)) (k : string) : option V :=
  match d with
  | [] => None
  | (k', v) :: rest => if k' =? k then Some v else dict_get rest k
  end.

Definition dict_has {V : Type} (d : list (string * V)) (k : string) : bool :=
  match dict_get d k with
  | Some _ => true
  | None => false
  end.

End Py.

(* ------------------------------------------------------------------------- *)
(** * Data model *)
(* ------------------------------------------------------------------------- *)

(** An entry of a blob listing ([azure.storage.blob.BlobProperties]); the
    last-modified timestamp is in microseconds. *)
Record BlobProperties := {
  name : string;
  last_modified : Z
}.

(** An element of [asset_add_uploads]; [upload_id = None] is an entry without
    that key. *)
Record UploadEntry := {
  upload_id : option string
}.

(** A document of the upload-tracking collection. *)
Record UploadRecord := {
  ur_company_id : string;
  created_on : Z;
  asset_add_uploads : option (list UploadEntry)
}.

Record ConnectionDetail := {
  csp_acct_name : option string
}.

(** A document of the generic collection; a field that is [None] is absent
    (or null) in the document. *)
Record GenericRecord := {
  gr_company_id : string;
  license_asset_summary_workbook_processed : option string;
  pricing_retired_workbook_processed : option string;
  pricing_active_workbook_processed : option string;
  orders_workbook_processed : option string;
  product_list_workbook_processed : option string;
  connection_details : option (list ConnectionDetail)
}.

(** What [pd.read_csv(..., dtype=str)] returns: the columns by header, each
    cell a string or missing (NaN). *)
Definition DataFrame := list (string * list (option string)).

Definition bytes := list Byte.byte.

(** Python exceptions that the modelled code can meet. *)
Inductive exn :=
| KeyError (key : string)
| ServiceError (msg : string)
| ParserError (msg : string).

Definition exn_str (e : exn) : string :=
  match e with
  | KeyError k => "'" ++ k ++ "'"
  | ServiceError m => m
  | ParserError m => m
  end.

Inductive result (A : Type) :=
| Ok (a : A)
| Raise (e : exn).
Arguments Ok {A} a.
Arguments Raise {A} e.

(** [BlobSasPermissions]: the flags of a SAS token. *)
Record BlobSasPermissions := {
  perm_read : bool;
  perm_add : bool;
  perm_create : bool;
  perm_write : bool;
  perm_delete : bool;
  perm_list : bool
}.

Definition read_only : BlobSasPermissions :=
  {| perm_read := true; perm_add := false; perm_create := false;
     perm_write := false; perm_delete := false; perm_list := false |}.

Record UserDelegationKey := {
  key_start : Z;
  key_expiry : Z;
  key_value : string
}.

(** The keyword arguments of a call to [generate_blob_sas]. *)
Record SasArgs := {
  sas_account_name : option string;
  sas_container_name : option string;
  sas_blob_name : string;
  sas_user_delegation_key : UserDelegationKey;
  sas_permission : BlobSasPermissions;
  sas_expiry : Z
}.

(** The collaborators of the engine. *)
Record World := {
  (** [os.getenv] *)
  getenv : string -> option string;
  (** the n-th reading of [datetime.utcnow()], in microseconds *)
  utcnow_reading : nat -> Z;
  (** the blobs of a container of the account at [account_url] *)
  container_blobs : string -> option string -> result (list BlobProperties);
  (** [download_blob(...).readall()] of a blob of a container *)
  blob_content : string -> option string -> string -> result bytes;
  (** [pd.read_csv(io.BytesIO(data), dtype=str)] *)
  read_csv : bytes -> result DataFrame;
  (** [BlobServiceClient.get_user_delegation_key(start, expiry)] *)
  user_delegation_key : string -> Z -> Z -> result UserDelegationKey;
  (** [azure.storage.blob.generate_blob_sas] *)
  generate_blob_sas : SasArgs -> result string;
  (** the upload-tracking collection, in natural order *)
  upload_collection : list UploadRecord;
  (** the generic collection, in natural order *)
  generic_collection : list GenericRecord
}.

(* ------------------------------------------------------------------------- *)
(** * The monad of a view: clock, log, exceptions *)
(* ------------------------------------------------------------------------- *)

Inductive LogLevel := WARNING | ERROR.

Record State := {
  ticks : nat;                       (* clock readings taken so far *)
  log : list (LogLevel * string)     (* records logged so far, oldest first *)
}.

Definition M (A : Type) : Type := State -> result A * State.

Definition ret {A : Type} (a : A) : M A := fun s => (Ok a, s).

Definition raise {A : Type} (e : exn) : M A := fun s => (Raise e, s).

Definition bind {A B : Type} (m : M A) (k : A -> M B) : M B :=
  fun s =>
    match m s with
    | (Ok a, s') => k a s'
    | (Raise e, s') => (Raise e, s')
    end.

Notation "x <- m ;; k" := (bind m (fun x => k))
  (at level 61, m at next level, right associativity).

(** An external call: its outcome is returned or raised. *)
Definition call {A : Type} (r : result A) : M A := fun s => (r, s).

(** [try: body except Exception as e: handler(e)] *)
Definition try_except {A : Type} (body : M A) (handler : exn -> M A) : M A :=
  fun s =>
    match body s with
    | (Ok a, s') => (Ok a, s')
    | (Raise e, s') => handler e s'
    end.

Definition logging (lvl : LogLevel) (msg : string) : M unit :=
  fun s => (Ok tt, {| ticks := ticks s; log := (log s ++ [(lvl, msg)])%list |}).

Definition utcnow (w : World) : M Z :=
  fun s => (Ok (utcnow_reading w (ticks s)), {| ticks := S (ticks s); log := log s |}).

(** How one iteration of a [for] loop ends: fall through to the next element,
    [break], or [return] from the enclosing function. *)
Inductive Step (S R : Type) :=
| Next (s : S)
| Break (s : S)
| Return (r : R).
Arguments Next {S R} s.
Arguments Break {S R} s.
Arguments Return {S R} r.

(** [for x in xs: body], threading the local variables [acc] that the body
    assigns; [inl acc] when the loop ends, [inr r] when the body returned. *)
Fixpoint for_in {A S R : Type} (xs : list A) (acc : S)
    (body : A -> S -> M (Step S R)) : M (S + R) :=
  match xs with
  | [] => ret (inl acc)
  | x :: rest =>
      st <- body x acc ;;
      match st with
      | Next acc' => for_in rest acc' body
      | Break acc' => ret (inl acc')
      | Return r => ret (inr r)
      end
  end.

(* ------------------------------------------------------------------------- *)
(** * Responses *)
(* ------------------------------------------------------------------------- *)

(** An element of the ['files'] list of a response. *)
Record FileLink := {
  file : string;
  download_url : string
}.

(** The JSON objects that the views pass to [jsonify]. *)
Inductive Body :=
| ErrorBody (error : string)
| MessageBody (message : string)
| LinkBody (message : string) (url : string)
| FilesBody (message : string) (files : list FileLink).

(** The pair [(jsonify(body), status)] returned by a view. *)
Record Response := {
  body : Body;
  status : Z
}.

Definition jsonify (b : Body) (code : Z) : Response :=
  {| body := b; status := code |}.

(* ------------------------------------------------------------------------- *)
(** * Collaborators as the source calls them *)
(* ------------------------------------------------------------------------- *)

(** [collection.find_one(filter)]: the first matching document. *)
Definition find_one {D : Type} (matches : D -> bool) (collection : list D) : option D :=
  List.find matches collection.

(** [collection.find_one(filter, sort=[(key, -1)])]: a matching document of
    greatest key (the first such in natural order). *)
Definition find_one_sorted_desc {D : Type} (matches : D -> bool) (key : D -> Z)
    (collection : list D) : option D :=
  Py.max key (filter matches collection).

(** [BlobServiceClient(account_url=..., credential=...)] *)
Record BlobServiceClient := {
  account_url : string
}.

(** [container_client.list_blobs(name_starts_with=...)]: the listing of the
    container, restricted by the service to the names with the given prefix. *)
Definition list_blobs (w : World) (client : BlobServiceClient)
    (container_name : option string) (name_starts_with : option string)
    : M (list BlobProperties) :=
  blobs <- call (container_blobs w (account_url client) container_name) ;;
  ret (match name_starts_with with
       | None => blobs
       | Some p => filter (fun b => String.prefix p (name b)) blobs
       end).

(** [timedelta(minutes=m)] in microseconds. *)
Definition timedelta_minutes (m : Z) : Z := (m * 60000000)%Z.

(** The default of the parameter [expiry_minutes]. *)
Definition default_expiry_minutes : Z := 15%Z.

(** [generate_sas_url] (lines 51-64). *)
Definition generate_sas_url (w : World) (blob_service_client : BlobServiceClient)
    (account_name container_name : option string) (blob_name : string)
    (expiry_minutes : Z) : M string :=
  now <- utcnow w ;;
  let expiry := (now + timedelta_minutes expiry_minutes)%Z in
  start <- utcnow w ;;
  delegation_key <-
    call (user_delegation_key w (account_url blob_service_client) start expiry) ;;
  sas_token <-
    call (generate_blob_sas w
            {| sas_account_name := account_name;
               sas_container_name := container_name;
               sas_blob_name := blob_name;
               sas_user_delegation_key := delegation_key;
               sas_permission := read_only;
               sas_expiry := expiry |}) ;;
  ret ("https://" ++ Py.format account_name ++ ".blob.core.windows.net/"
         ++ Py.format container_name ++ "/" ++ blob_name ++ "?" ++ sas_token).

(** An entry of [app_container_mapping]. *)
Record Profile := {
  containers : list (option string);
  account_name : option string
}.

(** [app_container_mapping] (lines 66-99). *)
Definition app_container_mapping (w : World) : list (string * Profile) :=
  [ ("ATnA",
     {| containers := [getenv w "CONTAINER_ATnA"];
        account_name := getenv w "AZURE_STORAGE_ACCOUNT_NAME_ATnA" |});
    ("PALOALTO",
     {| containers := [getenv w "CONTAINER_PALOALTO_1"; getenv w "CONTAINER_PALOALTO_2"];
        account_name := getenv w "AZURE_STORAGE_ACCOUNT_NAME_PALOALTO" |});
    ("EAROI",
     {| containers := [getenv w "CONTAINER_EAROI"];
        account_name := getenv w "AZURE_STORAGE_ACCOUNT_NAME_EAROI" |});
    ("F5",
     {| containers := [getenv w "CONTAINER_F5"];
        account_name := getenv w "AZURE_STORAGE_ACCOUNT_NAME_F5" |});
    ("CHECKPOINT",
     {| containers := [getenv w "CONTAINER_CHECKPOINT"];
        account_name := getenv w "AZURE_STORAGE_ACCOUNT_NAME_CHECKPOINT" |});
    ("MCE",
     {| containers := [getenv w "CONTAINER_MCE"];
        account_name := getenv w "AZURE_STORAGE_ACCOUNT_NAME_MCE" |});
    ("CISCOIBR",
     {| containers := [getenv w "CONTAINER_CISCO_IBR"];
        account_name := getenv w "AZURE_STORAGE_ACCOUNT_NAME_CISCO_IBR" |});
    ("BYOW",
     {| containers := [getenv w "CONTAINER_BYOW"];
        account_name := getenv w "AZURE_STORAGE_ACCOUNT_NAME_BYOW" |}) ].

(** [app_container_mapping[app_name]] *)
Definition mapping_item (w : World) (app_name : string) : M Profile :=
  match Py.dict_get (app_container_mapping w) app_name with
  | Some info => ret info
  | None => raise (KeyError app_name)
  end.

(** [get_blob_service_client] (lines 252-259). *)
Definition get_blob_service_client (w : World) (app_name : string) : M BlobServiceClient :=
  info <- mapping_item w app_name ;;
  ret {| account_url := "https://" ++ Py.format (account_name info) ++ ".blob.core.windows.net" |}.

(** The outcome of an inner loop seen from the enclosing loop: carry on with
    the locals, or keep returning. *)
Definition after_loop {S R : Type} (r : S + R) : Step S R :=
  match r with
  | inl acc => Next acc
  | inr v => Return v
  end.

(* ------------------------------------------------------------------------- *)
(** * Upload-tracking strategy: [handle_atna_download] (lines 122-140) *)
(* ------------------------------------------------------------------------- *)

(** Lines 135-138: the loop over the blobs of one container. *)
Definition atna_scan_blobs (w : World) (blob_service_client : BlobServiceClient)
    (account_name container_name : option string) (upload_id : string)
    (blobs : list BlobProperties) : M (unit + Response) :=
  for_in blobs tt (fun blob _ =>
    if Py.str_in upload_id (name blob) then
      download_url <- generate_sas_url w blob_service_client account_name
                        container_name (name blob) default_expiry_minutes ;;
      ret (Return (jsonify (LinkBody ("SAS link generated for " ++ name blob)
                                     download_url) 200))
    else ret (Next tt)).

(** Lines 133-138: the loop over the containers. *)
Definition atna_scan_containers (w : World) (blob_service_client : BlobServiceClient)
    (account_name : option string) (container_names : list (option string))
    (upload_id : string) : M (unit + Response) :=
  for_in container_names tt (fun container_name _ =>
    blobs <- list_blobs w blob_service_client container_name None ;;
    r <- atna_scan_blobs w blob_service_client account_name container_name
           upload_id blobs ;;
    ret (after_loop r)).

(** Lines 133-140: the scan for the upload identifier. *)
Definition atna_scan (w : World) (blob_service_client : BlobServiceClient)
    (account_name : option string) (container_names : list (option string))
    (upload_id : string) : M Response :=
  r <- atna_scan_containers w blob_service_client account_name container_names
         upload_id ;;
  match r with
  | inr response => ret response
  | inl _ => ret (jsonify (ErrorBody "No file found matching upload_id") 404)
  end.

Definition handle_atna_download (w : World) (blob_service_client : BlobServiceClient)
    (app_name company_id : string) : M Response :=
  let latest_record :=
    find_one_sorted_desc (fun r => ur_company_id r =? company_id) created_on
      (upload_collection w) in
  match latest_record with
  | None => ret (jsonify (ErrorBody "No upload_id found for the given company_id") 404)
  | Some record =>
      match asset_add_uploads record with
      | None | Some [] =>
          ret (jsonify (ErrorBody "No upload_id found for the given company_id") 404)
      | Some (first :: _) =>
          upload_id <- match upload_id first with
                       | Some u => ret u
                       | None => raise (KeyError "upload_id")
                       end ;;
          info <- mapping_item w app_name ;;
          atna_scan w blob_service_client (account_name info) (containers info) upload_id
      end
  end.

(* ------------------------------------------------------------------------- *)
(** * Processed-workbook strategy: [handle_f5_checkpoint_download]
      (lines 142-185) *)
(* ------------------------------------------------------------------------- *)

(** [[f for f in files_to_download if f]] *)
Fixpoint keep_truthy (fields : list (option string)) : list string :=
  match fields with
  | [] => []
  | f :: rest =>
      match Py.truthy f with
      | Some f => f :: keep_truthy rest
      | None => keep_truthy rest
      end
  end.

(** Lines 174-180: the loop over the listed blobs of one container. *)
Definition f5_checkpoint_scan_blobs (w : World) (blob_service_client : BlobServiceClient)
    (account_name container_name : option string) (blob_name : string)
    (blob_list : list BlobProperties) (sas_links : list FileLink)
    : M (list FileLink + Response) :=
  for_in blob_list sas_links (fun blob sas_links =>
    if name blob =? blob_name then
      url <- generate_sas_url w blob_service_client account_name
               container_name blob_name default_expiry_minutes ;;
      ret (Break (sas_links ++ [{| file := blob_name; download_url := url |}])%list)
    else ret (Next sas_links)).

(** Lines 171-180: the loop over the containers, for one workbook name. *)
Definition f5_checkpoint_scan_containers (w : World)
    (blob_service_client : BlobServiceClient) (account_name : option string)
    (container_names : list (option string)) (blob_name : string)
    (sas_links : list FileLink) : M (list FileLink + Response) :=
  for_in container_names sas_links (fun container_name sas_links =>
    blob_list <- list_blobs w blob_service_client container_name (Some blob_name) ;;
    r <- f5_checkpoint_scan_blobs w blob_service_client account_name container_name
           blob_name blob_list sas_links ;;
    ret (after_loop r)).

(** Lines 168-180: the scan for the workbook names; the result is [sas_links]. *)
Definition f5_checkpoint_scan (w : World) (blob_service_client : BlobServiceClient)
    (account_name : option string) (container_names : list (option string))
    (files_to_download : list string) : M (list FileLink + Response) :=
  for_in files_to_download [] (fun blob_name sas_links =>
    r <- f5_checkpoint_scan_containers w blob_service_client account_name
           container_names blob_name sas_links ;;
    ret (after_loop r)).

(** Lines 149-160: the workbook fields read from the record, by application. *)
Definition workbook_fields (app_name : string) (record : GenericRecord)
    : list (option string) :=
  if app_name =? "F5" then
    [ license_asset_summary_workbook_processed record;
      pricing_retired_workbook_processed record;
      pricing_active_workbook_processed record ]
  else if app_name =? "CHECKPOINT" then
    [ orders_workbook_processed record;
      product_list_workbook_processed record ]
  else [].

Definition handle_f5_checkpoint_download (w : World) (blob_service_client : BlobServiceClient)
    (app_name company_id : string) : M Response :=
  match find_one (fun r => gr_company_id r =? company_id) (generic_collection w) with
  | None => ret (jsonify (ErrorBody ("No record found for company_id: " ++ company_id)) 404)
  | Some record =>
      let files_to_download := workbook_fields app_name record in
      let files_to_download := keep_truthy files_to_download in
      match files_to_download with
      | [] => ret (jsonify (ErrorBody "No workbook filenames found in MongoDB record") 404)
      | _ :: _ =>
          info <- mapping_item w app_name ;;
          r <- f5_checkpoint_scan w blob_service_client (account_name info)
                 (containers info) files_to_download ;;
          match r with
          | inr response => ret response
          | inl [] => ret (jsonify (ErrorBody "No matching blobs found in containers") 404)
          | inl sas_links => ret (jsonify (FilesBody "SAS links generated" sas_links) 200)
          end
      end
  end.

(* ------------------------------------------------------------------------- *)
(** * Content-match strategy: [handle_paloalto_download] (lines 187-223) *)
(* ------------------------------------------------------------------------- *)

(** [.astype(str)] on a cell: a missing value becomes the text [nan]. *)
Definition astype_str (cell : option string) : string :=
  match cell with
  | Some s => s
  | None => "nan"
  end.

(** [.strip().lower()] *)
Definition normalize (s : string) : string := Py.lower (Py.strip s).

(** Lines 210-212 on a parsed table: [None] when the column is missing,
    otherwise whether the normalized column holds the target. *)
Definition column_has (df : DataFrame) (csp_acct_name : string) : option bool :=
  match Py.dict_get df "CSP Acct Name" with
  | None => None
  | Some column =>
      let column := map (fun cell => normalize (astype_str cell)) column in
      Some (existsb (String.eqb csp_acct_name) column)
  end.

(** Lines 206-218: the body of the loop over the blobs of a container. *)
Definition paloalto_process_blob (w : World) (blob_service_client : BlobServiceClient)
    (account_name container_name : option string) (csp_acct_name : string)
    (blob : BlobProperties) (matching_files : list FileLink) : M (list FileLink) :=
  try_except
    (blob_data <- call (blob_content w (account_url blob_service_client)
                          container_name (name blob)) ;;
     df <- call (read_csv w blob_data) ;;
     match column_has df csp_acct_name with
     | Some true =>
         url <- generate_sas_url w blob_service_client account_name container_name
                  (name blob) default_expiry_minutes ;;
         ret (matching_files ++ [{| file := name blob; download_url := url |}])%list
     | Some false | None => ret matching_files
     end)
    (fun e =>
       _ <- logging WARNING ("Failed to process blob " ++ name blob ++ ": " ++ exn_str e) ;;
       ret matching_files).

(** Lines 205-218: the loop over the blobs of one container. *)
Definition paloalto_scan_blobs (w : World) (blob_service_client : BlobServiceClient)
    (account_name container_name : option string) (csp_acct_name : string)
    (blobs : list BlobProperties) (matching_files : list FileLink)
    : M (list FileLink + Response) :=
  for_in blobs matching_files (fun blob matching_files =>
    matching_files <- paloalto_process_blob w blob_service_client account_name
                        container_name csp_acct_name blob matching_files ;;
    ret (Next matching_files)).

(** Lines 201-218: the scan of all containers; the result is [matching_files]. *)
Definition paloalto_scan (w : World) (blob_service_client : BlobServiceClient)
    (account_name : option string) (container_names : list (option string))
    (csp_acct_name : string) : M (list FileLink + Response) :=
  for_in container_names [] (fun container_name matching_files =>
    blobs <- list_blobs w blob_service_client container_name None ;;
    r <- paloalto_scan_blobs w blob_service_client account_name container_name
           csp_acct_name blobs matching_files ;;
    ret (after_loop r)).

Definition handle_paloalto_download (w : World) (blob_service_client : BlobServiceClient)
    (app_name company_id : string) : M Response :=
  match find_one (fun r => gr_company_id r =? company_id) (generic_collection w) with
  | None => ret (jsonify (ErrorBody ("No record found for company_id: " ++ company_id)) 404)
  | Some record =>
      let connection_details :=
        match connection_details record with
        | Some l => l
        | None => []
        end in
      match connection_details with
      | [] => ret (jsonify (ErrorBody "No csp_acct_name found") 404)
      | first :: _ =>
          match Py.truthy (csp_acct_name first) with
          | None => ret (jsonify (ErrorBody "No csp_acct_name found") 404)
          | Some csp_acct_name =>
              let csp_acct_name := normalize csp_acct_name in
              info <- mapping_item w app_name ;;
              r <- paloalto_scan w blob_service_client (account_name info)
                     (containers info) csp_acct_name ;;
              match r with
              | inr response => ret response
              | inl [] => ret (jsonify (MessageBody "No matching data found") 200)
              | inl matching_files =>
                  ret (jsonify (FilesBody "SAS links generated" matching_files) 200)
              end
          end
      end
  end.

(* ------------------------------------------------------------------------- *)
(** * Recency strategy: [handle_latest_blob_download] (lines 225-250) *)
(* ------------------------------------------------------------------------- *)

(** Lines 236-240: the update of [(latest_blob, latest_container)] by the
    matching blobs of one container. *)
Definition latest_update (company_id : string) (container_name : option string)
    (blobs : list BlobProperties)
    (latest : option (BlobProperties * option string))
    : option (BlobProperties * option string) :=
  let matching := filter (fun b => Py.str_in company_id (name b)) blobs in
  match Py.max last_modified matching with
  | None => latest
  | Some most_recent =>
      match latest with
      | None => Some (most_recent, container_name)
      | Some (latest_blob, _) =>
          if (last_modified latest_blob <? last_modified most_recent)%Z
          then Some (most_recent, container_name)
          else latest
      end
  end.

(** Lines 229-240: the scan; the result is [(latest_blob, latest_container)],
    [None] while both are [None]. *)
Definition latest_scan (w : World) (blob_service_client : BlobServiceClient)
    (container_names : list (option string)) (company_id : string)
    : M (option (BlobProperties * option string) + Response) :=
  for_in container_names None (fun container_name latest =>
    blobs <- list_blobs w blob_service_client container_name None ;;
    ret (Next (latest_update company_id container_name blobs latest))).

Definition handle_latest_blob_download (w : World) (blob_service_client : BlobServiceClient)
    (app_name company_id : string) : M Response :=
  info <- mapping_item w app_name ;;
  r <- latest_scan w blob_service_client (containers info) company_id ;;
  match r with
  | inr response => ret response
  | inl None => ret (jsonify (MessageBody "No files found for company_id") 200)
  | inl (Some (latest_blob, latest_container)) =>
      try_except
        (download_url <- generate_sas_url w blob_service_client (account_name info)
                           latest_container (name latest_blob) default_expiry_minutes ;;
         ret (jsonify (LinkBody ("Download link for " ++ name latest_blob ++ " generated")
                                download_url) 200))
        (fun e =>
           _ <- logging ERROR ("Failed to generate SAS URL: " ++ exn_str e) ;;
           ret (jsonify (ErrorBody "Failed to generate download link") 500))
  end.

(* ------------------------------------------------------------------------- *)
(** * Dispatcher: [download_latest_files] (lines 101-120) *)
(* ------------------------------------------------------------------------- *)

(** The view; its arguments are [request.json.get('application_name')] and
    [request.json.get('company_id')].  An exception that leaves the view is
    answered by Flask with its own "500 Internal Server Error" page. *)
Definition download_latest_files (w : World) (app_name company_id : option string)
    : M Response :=
  match Py.truthy app_name, Py.truthy company_id with
  | Some app_name, Some company_id =>
      if negb (Py.dict_has (app_container_mapping w) app_name) then
        ret (jsonify (ErrorBody "Invalid application name") 400)
      else
        blob_service_client <- get_blob_service_client w app_name ;;
        if app_name =? "ATnA" then
          handle_atna_download w blob_service_client app_name company_id
        else if (app_name =? "F5") || (app_name =? "CHECKPOINT") then
          handle_f5_checkpoint_download w blob_service_client app_name company_id
        else if app_name =? "PALOALTO" then
          handle_paloalto_download w blob_service_client app_name company_id
        else
          handle_latest_blob_download w blob_service_client app_name company_id
  | _, _ => ret (jsonify (ErrorBody "Missing application_name or company_id") 400)
  end.

(** The error kinds of the specification, as the responses of the source. *)
Definition InvalidRequest : Response :=
  jsonify (ErrorBody "Missing application_name or company_id") 400.
Definition UnknownApplication : Response :=
  jsonify (ErrorBody "Invalid application name") 400.
Definition NoUploadRecord : Response :=
  jsonify (ErrorBody "No upload_id found for the given company_id") 404.
Definition NoMatchingObject_upload : Response :=
  jsonify (ErrorBody "No file found matching upload_id") 404.
Definition NoMatchingObject_workbook : Response :=
  jsonify (ErrorBody "No matching blobs found in containers") 404.
Definition LinkIssuanceError : Response :=
  jsonify (ErrorBody "Failed to generate download link") 500.
Definition NoFilenamesConfigured : Response :=
  jsonify (ErrorBody "No workbook filenames found in MongoDB record") 404.
Definition Empty_content_match : Response :=
  jsonify (MessageBody "No matching data found") 200.
Definition Empty_recency : Response :=
  jsonify (MessageBody "No files found for company_id") 200.

(** The state in which a view starts. *)
Definition initial_state : State := {| ticks := 0; log := [] |}.

(** What the storage service lets the bearer of a blob SAS do: the token
    signed over [args] is honoured for the signed container and blob only,
    for the operations its permissions name, and until its expiry. *)
Inductive Operation := ReadBlob | WriteBlob | DeleteBlob | ListBlobs.

Definition permits (p : BlobSasPermissions) (op : Operation) : bool :=
  match op with
  | ReadBlob => perm_read p
  | WriteBlob => perm_write p || perm_add p || perm_create p
  | DeleteBlob => perm_delete p
  | ListBlobs => perm_list p
  end.

Definition same_container (c1 c2 : option string) : bool :=
  match c1, c2 with
  | Some a, Some b => a =? b
  | None, None => true
  | _, _ => false
  end.

Definition sas_allows (args : SasArgs) (container_name : option string)
    (blob_name : string) (op : Operation) (at_time : Z) : bool :=
  same_container container_name (sas_container_name args)
  && (blob_name =? sas_blob_name args)
  && permits (sas_permission args) op
  && (at_time <=? sas_expiry args)%Z.

(* ------------------------------------------------------------------------- *)
(** * Sample worlds *)
(* ------------------------------------------------------------------------- *)

Module Demo.

(** Every environment variable is set to its own name. *)
Definition env (k : string) : option string := Some k.

Definition clock (n : nat) : Z := (1000 * Z.of_nat n)%Z.

Definition key (_ : string) (start expiry : Z) : result UserDelegationKey :=
  Ok {| key_start := start; key_expiry := expiry; key_value := "k" |}.

Definition sign (args : SasArgs) : result string :=
  Ok ("sig-" ++ sas_blob_name args).

(** A signer that is refused for one blob name. *)
Definition sign_except (refused : string) (args : SasArgs) : result string :=
  if sas_blob_name args =? refused
  then Raise (ServiceError "AuthorizationFailure")
  else Ok ("sig-" ++ sas_blob_name args).

Definition blob (n : string) (t : Z) : BlobProperties :=
  {| name := n; last_modified := t |}.

(** Two containers: the first holds [acme-1.csv], [other.csv] and
    [broken.csv], the second [acme-2.csv] and [acme-1.csv]. *)
Definition listing (_ : string) (c : option string) : result (list BlobProperties) :=
  match c with
  | Some c =>
      if c =? "CONTAINER_PALOALTO_1" then
        Ok [blob "broken.csv" 5; blob "other.csv" 40; blob "acme-1.csv" 30]
      else if c =? "CONTAINER_PALOALTO_2" then
        Ok [blob "acme-2.csv" 30; blob "acme-1.csv" 20]
      else Ok [blob "acme-1.csv" 10; blob "acme-2.csv" 20]
  | None => Raise (ServiceError "no container")
  end.

(** The body of a blob is its name's first character. *)
Definition content (_ : string) (_ : option string) (n : string) : result bytes :=
  match n with
  | String c _ => Ok [byte_of_ascii c]
  | EmptyString => Raise (ServiceError "BlobNotFound")
  end.

(** Bodies starting with [a] parse to a table with the account column,
    those starting with [o] to a table without it, others do not parse. *)
Definition parse (data : bytes) : result DataFrame :=
  match data with
  | [b] =>
      if Ascii.eqb (ascii_of_byte b) "a"%char then
        Ok [("Region", [Some "eu"; Some "us"]); ("CSP Acct Name", [Some " Acme "; None])]
      else if Ascii.eqb (ascii_of_byte b) "o"%char then
        Ok [("Region", [Some "eu"])]
      else Raise (ParserError "Error tokenizing data")
  | _ => Raise (ParserError "No columns to parse from file")
  end.

Definition uploads : list UploadRecord :=
  [ {| ur_company_id := "ACME"; created_on := 100;
       asset_add_uploads := Some [{| upload_id := Some "other" |}] |};
    {| ur_company_id := "ACME"; created_on := 300;
       asset_add_uploads := Some [{| upload_id := Some "acme-2" |};
                                  {| upload_id := Some "acme-1" |}] |};
    {| ur_company_id := "BETA"; created_on := 900;
       asset_add_uploads := Some [{| upload_id := None |}] |};
    {| ur_company_id := "GAMMA"; created_on := 50;
       asset_add_uploads := Some [{| upload_id := Some "nothing-like-it" |}] |};
    {| ur_company_id := "DELTA"; created_on := 70;
       asset_add_uploads := Some [{| upload_id := Some "acme-1" |}] |} ].

Definition acme_record : GenericRecord :=
  {| gr_company_id := "ACME";
     license_asset_summary_workbook_processed := Some "acme-1.csv";
     pricing_retired_workbook_processed := None;
     pricing_active_workbook_processed := Some "";
     orders_workbook_processed := Some "missing.csv";
     product_list_workbook_processed := None;
     connection_details := Some [{| csp_acct_name := Some "ACME  " |}] |}.

Definition zed_record : GenericRecord :=
  {| gr_company_id := "ZED";
     license_asset_summary_workbook_processed := Some "zed.csv";
     pricing_retired_workbook_processed := None;
     pricing_active_workbook_processed := None;
     orders_workbook_processed := None;
     product_list_workbook_processed := None;
     connection_details := Some [{| csp_acct_name := Some "zed" |}] |}.

Definition generics : list GenericRecord := [acme_record; zed_record].

Definition world : World :=
  {| getenv := env;
     utcnow_reading := clock;
     container_blobs := listing;
     blob_content := content;
     read_csv := parse;
     user_delegation_key := key;
     generate_blob_sas := sign;
     upload_collection := uploads;
     generic_collection := generics |}.

(** The same world, in which signing a link for [acme-1.csv] is refused. *)
Definition world_refusing : World :=
  {| getenv := env;
     utcnow_reading := clock;
     container_blobs := listing;
     blob_content := content;
     read_csv := parse;
     user_delegation_key := key;
     generate_blob_sas := sign_except "acme-1.csv";
     upload_collection := uploads;
     generic_collection := generics |}.

Definition client (app_name : string) : BlobServiceClient :=
  {| account_url := "https://" ++ app_name ++ ".blob.core.windows.net" |}.

End Demo.

(* ------------------------------------------------------------------------- *)
(** * Reference functions used to state the properties *)
(* ------------------------------------------------------------------------- *)

(** The listings of the containers [cs] succeed and are given by [listing]. *)
Definition listed (w : World) (client : BlobServiceClient)
    (cs : list (option string)) (listing : option string -> list BlobProperties) : Prop :=
  forall c, In c cs -> container_blobs w (account_url client) c = Ok (listing c).

(** The answer of the upload-tracking scan for the object [b] of the
    container [c]: a link is issued for it and returned. *)
Definition atna_answer (w : World) (client : BlobServiceClient) (account : option string)
    (c : option string) (b : BlobProperties) : M Response :=
  download_url <- generate_sas_url w client account c (name b) default_expiry_minutes ;;
  ret (jsonify (LinkBody ("SAS link generated for " ++ name b) download_url) 200).

(** The answer of the recency strategy once the object [b] of the container
    [c] is chosen (lines 245-250). *)
Definition recency_answer (w : World) (client : BlobServiceClient) (account : option string)
    (c : option string) (b : BlobProperties) : M Response :=
  try_except
    (download_url <- generate_sas_url w client account c (name b) default_expiry_minutes ;;
     ret (jsonify (LinkBody ("Download link for " ++ name b ++ " generated")
                            download_url) 200))
    (fun e =>
       _ <- logging ERROR ("Failed to generate SAS URL: " ++ exn_str e) ;;
       ret (jsonify (ErrorBody "Failed to generate download link") 500)).

(** [chosen] is the pick of the recency strategy among the objects of the
    containers [cs] whose names contain [company_id]: none when there is no
    such object; otherwise one of greatest timestamp, from the earliest
    container that reaches that timestamp. *)
Definition recency_pick (listing : option string -> list BlobProperties)
    (company_id : string) (cs : list (option string))
    (chosen : option (BlobProperties * option string)) : Prop :=
  match chosen with
  | None =>
      forall c b, In c cs -> In b (listing c) -> Py.str_in company_id (name b) = false
  | Some (b, c) =>
      exists pre post,
        cs = (pre ++ c :: post)%list
        /\ In b (listing c)
        /\ Py.str_in company_id (name b) = true
        /\ (forall c' b', In c' cs -> In b' (listing c') ->
                          Py.str_in company_id (name b') = true ->
                          (last_modified b' <= last_modified b)%Z)
        /\ (forall c' b', In c' pre -> In b' (listing c') ->
                          Py.str_in company_id (name b') = true ->
                          (last_modified b' < last_modified b)%Z)
  end.

(** The outcome of a computation of the locals of a loop, as the outcome of
    a loop that ends without returning. *)
Definition as_locals {A R : Type} (x : result A * State) : result (A + R) * State :=
  match x with
  | (Ok a, s) => (Ok (inl a), s)
  | (Raise e, s) => (Raise e, s)
  end.

(** Lines 182-185: the answer of the processed-workbook strategy for the
    outcome of its scan. *)
Definition workbook_answer (x : result (list FileLink) * State) : result Response * State :=
  match x with
  | (Ok [], s) => (Ok NoMatchingObject_workbook, s)
  | (Ok sas_links, s) => (Ok (jsonify (FilesBody "SAS links generated" sas_links) 200), s)
  | (Raise e, s) => (Raise e, s)
  end.

(** Issue a link for each (container, object name) in turn, appending the
    pairs {file, link} to [acc]. *)
Fixpoint issue_links (w : World) (client : BlobServiceClient) (account : option string)
    (targets : list (option string * string)) (acc : list FileLink) : M (list FileLink) :=
  match targets with
  | [] => ret acc
  | (container_name, blob_name) :: rest =>
      url <- generate_sas_url w client account container_name blob_name
               default_expiry_minutes ;;
      issue_links w client account rest
        (acc ++ [{| file := blob_name; download_url := url |}])%list
  end.

(** Whether a listing holds an object named exactly [filename]. *)
Definition has_exact (blobs : list BlobProperties) (filename : string) : bool :=
  existsb (fun b => name b =? filename) blobs.

(** The first container, in configured order, that holds [filename]. *)
Definition first_container_with (listing : option string -> list BlobProperties)
    (cs : list (option string)) (filename : string) : option (option string) :=
  find (fun c => has_exact (listing c) filename) cs.

(** At most one (container, name) per filename: the first container wins. *)
Definition first_match_targets (listing : option string -> list BlobProperties)
    (cs : list (option string)) (files : list string) : list (option string * string) :=
  flat_map (fun f => match first_container_with listing cs f with
                     | Some c => [(c, f)]
                     | None => []
                     end) files.

(** One (container, name) per filename and per container that holds it. *)
Definition every_match_targets (listing : option string -> list BlobProperties)
    (cs : list (option string)) (files : list string) : list (option string * string) :=
  flat_map (fun f => map (fun c => (c, f))
                       (filter (fun c => has_exact (listing c) f) cs)) files.

(** Whether the name of an object contains [company_id]. *)
Definition name_has (company_id : string) (b : BlobProperties) : bool :=
  Py.str_in company_id (name b).

(** The value of [(latest_blob, latest_container)] after the containers [cs]. *)
Definition latest_after (listing : option string -> list BlobProperties)
    (company_id : string) (cs : list (option string))
    (latest : option (BlobProperties * option string))
    : option (BlobProperties * option string) :=
  fold_left (fun latest c => latest_update company_id c (listing c) latest) cs latest.

(** Every object of every container, in scan order. *)
Definition all_objects (listing : option string -> list BlobProperties)
    (cs : list (option string)) : list (option string * BlobProperties) :=
  flat_map (fun c => map (fun b => (c, b)) (listing c)) cs.

(** The content-match loop body run over a sequence of objects. *)
Fixpoint process_all (w : World) (client : BlobServiceClient) (account : option string)
    (csp_acct_name : string) (objects : list (option string * BlobProperties))
    (matching_files : list FileLink) : M (list FileLink) :=
  match objects with
  | [] => ret matching_files
  | (c, b) :: rest =>
      matching_files <- paloalto_process_blob w client account c csp_acct_name b
                          matching_files ;;
      process_all w client account csp_acct_name rest matching_files
  end.

(** Whether an object can be fetched and parsed and its normalized account
    column holds the (normalized) target. *)
Definition content_matches (w : World) (client : BlobServiceClient)
    (c : option string) (csp_acct_name : string) (b : BlobProperties) : bool :=
  match blob_content w (account_url client) c (name b) with
  | Ok data =>
      match read_csv w data with
      | Ok df =>
          match column_has df csp_acct_name with
          | Some true => true
          | _ => false
          end
      | Raise _ => false
      end
  | Raise _ => false
  end.

(** Link issuance for an object succeeds whenever it is attempted. *)
Definition issuable (w : World) (client : BlobServiceClient) (account : option string)
    (c : option string) (blob_name : string) : Prop :=
  forall s, exists url s',
    generate_sas_url w client account c blob_name default_expiry_minutes s = (Ok url, s').

(** The warning logged when processing an object raised [e]. *)
Definition process_warning (b : BlobProperties) (e : exn) : LogLevel * string :=
  (WARNING, "Failed to process blob " ++ name b ++ ": " ++ exn_str e).

(** The state after that warning. *)
Definition warned (s : State) (b : BlobProperties) (e : exn) : State :=
  {| ticks := ticks s; log := (log s ++ [process_warning b e])%list |}.

(** The shape of a response of a handler: an ['error'] body goes with the
    status 404 or 500, any other body with 200, and a list of files is never
    empty. *)
Definition handler_response (r : Response) : bool :=
  match body r with
  | ErrorBody _ => (status r =? 404)%Z || (status r =? 500)%Z
  | MessageBody _ => (status r =? 200)%Z
  | LinkBody _ _ => (status r =? 200)%Z
  | FilesBody _ [] => false
  | FilesBody _ (_ :: _) => (status r =? 200)%Z
  end.

(** The shape of a response of the view: that of a handler, or an ['error']
    body with the status 400. *)
Definition view_response (r : Response) : bool :=
  handler_response r
  || match body r with
     | ErrorBody _ => (status r =? 400)%Z
     | _ => false
     end.

(** The link of the entry [fl] points at the object named as its file, in one
    of the containers [cs] of the account. *)
Definition link_for (account : option string) (cs : list (option string))
    (fl : FileLink) : Prop :=
  exists c token,
    In c cs
    /\ download_url fl
       = "https://" ++ Py.format account ++ ".blob.core.windows.net/"
           ++ Py.format c ++ "/" ++ file fl ++ "?" ++ token.

(** The effect of one object, met in scan order, on the pair
    [(latest_blob, latest_container)] of the recency strategy. *)
Definition newer (company_id : string) (latest : option (BlobProperties * option string))
    (object : option string * BlobProperties) : option (BlobProperties * option string) :=
  let (c, b) := object in
  if name_has company_id b then
    match latest with
    | None => Some (b, c)
    | Some (latest_blob, _) =>
        if (last_modified latest_blob <? last_modified b)%Z then Some (b, c) else latest
    end
  else latest.

(** The client that the view builds for a profile. *)
Definition client_of (info : Profile) : BlobServiceClient :=
  {| account_url := "https://" ++ Py.format (account_name info) ++ ".blob.core.windows.net" |}.

(* ------------------------------------------------------------------------- *)
(** * Basic facts: strings, the monad, loops *)
(* ------------------------------------------------------------------------- *)

Unset Implicit Arguments.

Lemma prefix_refl (s : string) : String.prefix s s = true.
Proof.
  induction s as [|c s IH]; simpl; [reflexivity|].
  destruct (ascii_dec c c); [assumption | congruence].
Qed.

Lemma bind_ok {A B : Type} (m : M A) (k : A -> M B) s a s' :
  m s = (Ok a, s') -> bind m k s = k a s'.
Proof. intros H. unfold bind. rewrite H. reflexivity. Qed.

Lemma bind_raise {A B : Type} (m : M A) (k : A -> M B) s e s' :
  m s = (Raise e, s') -> bind m k s = (Raise e, s').
Proof. intros H. unfold bind. rewrite H. reflexivity. Qed.

Lemma list_blobs_ok w client c blobs prefix s :
  container_blobs w (account_url client) c = Ok blobs ->
  list_blobs w client c prefix s =
    (Ok (match prefix with
         | None => blobs
         | Some p => filter (fun b => String.prefix p (name b)) blobs
         end), s).
Proof. intros H. unfold list_blobs, bind, call, ret. rewrite H. reflexivity. Qed.

Lemma mapping_keys w app :
  Py.dict_has (app_container_mapping w) app = true <->
  In app ["ATnA"; "PALOALTO"; "EAROI"; "F5"; "CHECKPOINT"; "MCE"; "CISCOIBR"; "BYOW"].
Proof.
  unfold Py.dict_has, app_container_mapping, Py.dict_get.
  split.
  - intros H.
    repeat match goal with
    | H : context [if ?k =? app then _ else _] |- _ =>
        destruct (String.eqb_spec k app); [subst; simpl; tauto|]
    end.
    discriminate.
  - simpl. intros H.
    repeat (destruct H as [H|H]; [subst; reflexivity|]). contradiction.
Qed.

(* ------------------------------------------------------------------------- *)
(** * C1: unknown application identifiers *)
(* ------------------------------------------------------------------------- *)

(** C1 (as stated, refuted): an application identifier that is not a
    configured key does not yield [UnknownApplication] for every client
    identifier: with the empty client identifier the view answers
    [InvalidRequest] before it looks at the mapping. *)
Lemma C1_counterexample_empty_client_id :
  ~ (forall (w : World) (app_name client_id : string) (s : State),
        Py.dict_has (app_container_mapping w) app_name = false ->
        fst (download_latest_files w (Some app_name) (Some client_id) s)
        = Ok UnknownApplication).
Proof.
  intros H.
  specialize (H Demo.world "NOPE" "" initial_state eq_refl).
  vm_compute in H. discriminate H.
Qed.

(** C1 (amended): for every non-empty client identifier, a non-empty
    application identifier that is not a configured profile key yields
    [UnknownApplication] (status 400), whatever the client identifier and the
    world; no collaborator is called and nothing is logged. *)
Theorem C1_unknown_application (w : World) (app_name client_id : string) (s : State) :
  app_name <> "" ->
  client_id <> "" ->
  Py.dict_has (app_container_mapping w) app_name = false ->
  download_latest_files w (Some app_name) (Some client_id) s = (Ok UnknownApplication, s)
  /\ status UnknownApplication = 400%Z.
Proof.
  intros Ha Hc Hk. split; [|reflexivity].
  unfold download_latest_files, Py.truthy.
  destruct (String.eqb_spec app_name ""); [contradiction|].
  destruct (String.eqb_spec client_id ""); [contradiction|].
  rewrite Hk. reflexivity.
Qed.

Lemma C1_unknown_application_witness :
  download_latest_files Demo.world (Some "NOPE") (Some "ACME") initial_state
  = (Ok UnknownApplication, initial_state)
  /\ status UnknownApplication = 400%Z.
Proof.
  apply (@C1_unknown_application Demo.world "NOPE" "ACME" initial_state).
  - discriminate.
  - discriminate.
  - reflexivity.
Defined.

(* ------------------------------------------------------------------------- *)
(** * C8: the link issuer *)
(* ------------------------------------------------------------------------- *)

(** What [generate_sas_url] does in a state [s]: two clock readings, then the
    delegation key, then the signature; the first reading is the issue time. *)
Lemma generate_sas_url_run w client account container blob ttl s :
  let issue_time := utcnow_reading w (ticks s) in
  let start := utcnow_reading w (S (ticks s)) in
  let expiry := (issue_time + timedelta_minutes ttl)%Z in
  let s' := {| ticks := S (S (ticks s)); log := log s |} in
  generate_sas_url w client account container blob ttl s =
    match user_delegation_key w (account_url client) start expiry with
    | Raise e => (Raise e, s')
    | Ok key =>
        match generate_blob_sas w
                {| sas_account_name := account; sas_container_name := container;
                   sas_blob_name := blob; sas_user_delegation_key := key;
                   sas_permission := read_only; sas_expiry := expiry |} with
        | Raise e => (Raise e, s')
        | Ok token =>
            (Ok ("https://" ++ Py.format account ++ ".blob.core.windows.net/"
                   ++ Py.format container ++ "/" ++ blob ++ "?" ++ token), s')
        end
    end.
Proof.
  unfold generate_sas_url, bind, utcnow, call, ret. simpl.
  destruct (user_delegation_key w _ _ _); [|reflexivity].
  destruct (generate_blob_sas w _); reflexivity.
Qed.

(** Issuing a link leaves the log alone. *)
Lemma generate_sas_url_log w client account container blob ttl s r s' :
  generate_sas_url w client account container blob ttl s = (r, s') -> log s' = log s.
Proof.
  rewrite generate_sas_url_run.
  destruct (user_delegation_key w _ _ _); [|intros H; inversion H; reflexivity].
  destruct (generate_blob_sas w _); intros H; inversion H; reflexivity.
Qed.

Lemma same_container_eq c1 c2 : same_container c1 c2 = true -> c1 = c2.
Proof.
  destruct c1, c2; simpl; try discriminate; [|reflexivity].
  intros H. apply String.eqb_eq in H. now subst.
Qed.

(** C8: every link that [generate_sas_url] issues carries a token that was
    signed for exactly the given container and object, with the read
    permission only, and with an expiry equal to (hence no later than) the
    issue time plus the ttl; the default ttl is 15 minutes.  Such a token
    lets its bearer do nothing but read that very object, and only until
    issue time + ttl: a link for object X does not resolve object Y. *)
Theorem C8_issued_link_scope_and_expiry
    (w : World) (client : BlobServiceClient) (account container : option string)
    (blob : string) (ttl : Z) (s s' : State) (url : string) :
  generate_sas_url w client account container blob ttl s = (Ok url, s') ->
  let issue_time := utcnow_reading w (ticks s) in
  exists (key : UserDelegationKey) (token : string) (args : SasArgs),
    generate_blob_sas w args = Ok token
    /\ url = "https://" ++ Py.format account ++ ".blob.core.windows.net/"
               ++ Py.format container ++ "/" ++ blob ++ "?" ++ token
    /\ args = {| sas_account_name := account; sas_container_name := container;
                 sas_blob_name := blob; sas_user_delegation_key := key;
                 sas_permission := read_only;
                 sas_expiry := (issue_time + timedelta_minutes ttl)%Z |}
    /\ (sas_expiry args <= issue_time + timedelta_minutes ttl)%Z
    /\ (forall c b op t,
          sas_allows args c b op t = true ->
          c = container /\ b = blob /\ op = ReadBlob
          /\ (t <= issue_time + timedelta_minutes ttl)%Z)
    /\ timedelta_minutes default_expiry_minutes = (15 * 60 * 1000000)%Z.
Proof.
  intros H issue_time. rewrite generate_sas_url_run in H.
  destruct (user_delegation_key w _ _ _) as [key|e] eqn:Hk; [|discriminate].
  match type of H with
  | context [generate_blob_sas w ?a] => set (args := a) in *
  end.
  destruct (generate_blob_sas w args) as [token|e] eqn:Ht; [|discriminate].
  inversion H; subst url s'; clear H.
  exists key, token, args.
  split; [exact Ht|]. split; [reflexivity|]. split; [reflexivity|].
  split; [apply Z.le_refl|]. split; [|reflexivity].
  intros c b op t Hallow.
  unfold sas_allows in Hallow. repeat rewrite andb_true_iff in Hallow.
  destruct Hallow as [[[Hc Hb] Hp] Hle].
  apply same_container_eq in Hc. apply String.eqb_eq in Hb. apply Z.leb_le in Hle.
  repeat split; try assumption.
  destruct op; simpl in Hp; try discriminate; reflexivity.
Qed.

Lemma C8_issued_link_scope_and_expiry_witness :
  exists (key : UserDelegationKey) (token : string) (args : SasArgs),
    generate_blob_sas Demo.world args = Ok token
    /\ "https://acct.blob.core.windows.net/box/acme-1.csv?sig-acme-1.csv"
       = "https://" ++ Py.format (Some "acct") ++ ".blob.core.windows.net/"
           ++ Py.format (Some "box") ++ "/" ++ "acme-1.csv" ++ "?" ++ token
    /\ args = {| sas_account_name := Some "acct"; sas_container_name := Some "box";
                 sas_blob_name := "acme-1.csv"; sas_user_delegation_key := key;
                 sas_permission := read_only;
                 sas_expiry := (0 + timedelta_minutes 15)%Z |}
    /\ (sas_expiry args <= 0 + timedelta_minutes 15)%Z
    /\ (forall c b op t,
          sas_allows args c b op t = true ->
          c = Some "box" /\ b = "acme-1.csv" /\ op = ReadBlob
          /\ (t <= 0 + timedelta_minutes 15)%Z)
    /\ timedelta_minutes default_expiry_minutes = (15 * 60 * 1000000)%Z.
Proof.
  exact (@C8_issued_link_scope_and_expiry Demo.world (Demo.client "acct")
           (Some "acct") (Some "box") "acme-1.csv" 15 initial_state
           {| ticks := 2; log := [] |}
           "https://acct.blob.core.windows.net/box/acme-1.csv?sig-acme-1.csv"
           eq_refl).
Defined.

(* ------------------------------------------------------------------------- *)
(** * C10: an upload entry without its identifier *)
(* ------------------------------------------------------------------------- *)

Lemma get_blob_service_client_ok w app s :
  Py.dict_has (app_container_mapping w) app = true ->
  exists info,
    Py.dict_get (app_container_mapping w) app = Some info /\
    get_blob_service_client w app s =
      (Ok {| account_url := "https://" ++ Py.format (account_name info)
                              ++ ".blob.core.windows.net" |}, s).
Proof.
  unfold Py.dict_has, get_blob_service_client, mapping_item, bind.
  destruct (Py.dict_get (app_container_mapping w) app) as [info|]; [|discriminate].
  intros _. exists info. split; reflexivity.
Qed.

(** C10: the guard of [handle_atna_download] looks only at the presence of the
    most recent record and at the emptiness of its entry list.  When that list
    is non-empty and its first entry has no [upload_id], the handler does not
    answer [NoUploadRecord]: the lookup raises [KeyError], nothing catches it,
    and it leaves the view. *)
Theorem C10_first_entry_without_upload_id
    (w : World) (client : BlobServiceClient) (app_name company_id : string) (s : State)
    (record : UploadRecord) (first : UploadEntry) (others : list UploadEntry) :
  find_one_sorted_desc (fun r => ur_company_id r =? company_id) created_on
    (upload_collection w) = Some record ->
  asset_add_uploads record = Some (first :: others) ->
  upload_id first = None ->
  handle_atna_download w client app_name company_id s = (Raise (KeyError "upload_id"), s)
  /\ (company_id <> "" ->
      download_latest_files w (Some "ATnA") (Some company_id) s
      = (Raise (KeyError "upload_id"), s)).
Proof.
  intros Hrec Hup Hid.
  assert (Hh : forall cl app, handle_atna_download w cl app company_id s
                              = (Raise (KeyError "upload_id"), s)).
  { intros cl app. unfold handle_atna_download. rewrite Hrec, Hup, Hid. reflexivity. }
  split; [apply Hh|].
  intros Hc. unfold download_latest_files, Py.truthy. simpl.
  destruct (String.eqb_spec company_id ""); [contradiction|].
  unfold bind. simpl. apply Hh.
Qed.

Lemma C10_first_entry_without_upload_id_witness :
  handle_atna_download Demo.world (Demo.client "a") "ATnA" "BETA" initial_state
  = (Raise (KeyError "upload_id"), initial_state)
  /\ ("BETA" <> "" ->
      download_latest_files Demo.world (Some "ATnA") (Some "BETA") initial_state
      = (Raise (KeyError "upload_id"), initial_state)).
Proof.
  apply (@C10_first_entry_without_upload_id Demo.world (Demo.client "a") "ATnA" "BETA"
           initial_state
           {| ur_company_id := "BETA"; created_on := 900;
              asset_add_uploads := Some [{| upload_id := None |}] |}
           {| upload_id := None |} []).
  - reflexivity.
  - reflexivity.
  - reflexivity.
Defined.

(* ------------------------------------------------------------------------- *)
(** * C6: the scan of the upload-tracking strategy *)
(* ------------------------------------------------------------------------- *)

Section UploadTrackingScan.

Variable w : World.
Variable client : BlobServiceClient.
Variable account : option string.
Variable uid : string.

Lemma atna_scan_blobs_none c blobs s :
  (forall b, In b blobs -> Py.str_in uid (name b) = false) ->
  atna_scan_blobs w client account c uid blobs s = (Ok (inl tt), s).
Proof.
  unfold atna_scan_blobs.
  induction blobs as [|b blobs IH]; intros Hno; [reflexivity|].
  cbn [for_in]. unfold bind at 1.
  rewrite (Hno b (or_introl eq_refl)). unfold ret at 1.
  apply IH. intros b' Hb'. apply Hno. now right.
Qed.

Lemma atna_scan_blobs_first c before b after s :
  (forall b', In b' before -> Py.str_in uid (name b') = false) ->
  Py.str_in uid (name b) = true ->
  atna_scan_blobs w client account c uid (before ++ b :: after)%list s =
    match atna_answer w client account c b s with
    | (Ok response, s') => (Ok (inr response), s')
    | (Raise e, s') => (Raise e, s')
    end.
Proof.
  unfold atna_scan_blobs.
  induction before as [|b0 before IH]; intros Hno Hyes.
  - cbn [app for_in]. unfold bind at 1. rewrite Hyes.
    unfold atna_answer, bind, ret.
    destruct (generate_sas_url w client account c (name b) default_expiry_minutes s)
      as [[url|e] s']; reflexivity.
  - cbn [app for_in]. unfold bind at 1.
    rewrite (Hno b0 (or_introl eq_refl)). unfold ret at 1.
    apply IH; [|assumption]. intros b' Hb'. apply Hno. now right.
Qed.

Lemma atna_scan_containers_none cs listing s :
  listed w client cs listing ->
  (forall c b, In c cs -> In b (listing c) -> Py.str_in uid (name b) = false) ->
  atna_scan_containers w client account cs uid s = (Ok (inl tt), s).
Proof.
  unfold atna_scan_containers.
  induction cs as [|c cs IH]; intros Hl Hno; [reflexivity|].
  cbn [for_in]. unfold bind at 1. unfold bind at 1.
  rewrite (list_blobs_ok w client c _ None s (Hl c (or_introl eq_refl))).
  unfold bind at 1. rewrite atna_scan_blobs_none.
  - unfold ret at 1. cbn [after_loop].
    apply IH.
    + intros c' Hc'. apply Hl. now right.
    + intros c' b Hc'. apply Hno. now right.
  - intros b Hb. apply (Hno c b); [now left | assumption].
Qed.

Lemma atna_scan_containers_first pre c post listing before b after s :
  listed w client (pre ++ c :: post)%list listing ->
  (forall c' b', In c' pre -> In b' (listing c') -> Py.str_in uid (name b') = false) ->
  listing c = (before ++ b :: after)%list ->
  (forall b', In b' before -> Py.str_in uid (name b') = false) ->
  Py.str_in uid (name b) = true ->
  atna_scan_containers w client account (pre ++ c :: post)%list uid s =
    match atna_answer w client account c b s with
    | (Ok response, s') => (Ok (inr response), s')
    | (Raise e, s') => (Raise e, s')
    end.
Proof.
  unfold atna_scan_containers.
  induction pre as [|c0 pre IH]; intros Hl Hpre Hc Hno Hyes.
  - cbn [app for_in]. unfold bind at 1. unfold bind at 1.
    rewrite (list_blobs_ok w client c _ None s (Hl c (or_introl eq_refl))).
    unfold bind at 1. rewrite Hc, (atna_scan_blobs_first c before b after s Hno Hyes).
    destruct (atna_answer w client account c b s) as [[response|e] s']; reflexivity.
  - cbn [app for_in]. unfold bind at 1. unfold bind at 1.
    rewrite (list_blobs_ok w client c0 _ None s (Hl c0 (or_introl eq_refl))).
    unfold bind at 1. rewrite atna_scan_blobs_none.
    + unfold ret at 1. cbn [after_loop].
      apply IH; try assumption.
      * intros c' Hc'. apply Hl. now right.
      * intros c' b' Hc'. apply Hpre. now right.
    + intros b' Hb'. apply (Hpre c0 b'); [now left | assumption].
Qed.

End UploadTrackingScan.

(** C6: the upload-tracking scan visits the containers in configured order
    and the objects of each in listing order.  As soon as an object whose name
    contains the upload identifier is met (none before it in its container,
    none in an earlier container), a link is issued for that one object and
    the answer (status 200) is returned without scanning further: the answer
    is the same whatever follows.  When no object of any container matches,
    the answer is [NoMatchingObject] (status 404). *)
Theorem C6_upload_tracking_scan
    (w : World) (client : BlobServiceClient) (account : option string)
    (cs : list (option string)) (uid : string)
    (listing : option string -> list BlobProperties) (s : State) :
  listed w client cs listing ->
  (forall pre c post before b after,
      cs = (pre ++ c :: post)%list ->
      listing c = (before ++ b :: after)%list ->
      (forall c' b', In c' pre -> In b' (listing c') -> Py.str_in uid (name b') = false) ->
      (forall b', In b' before -> Py.str_in uid (name b') = false) ->
      Py.str_in uid (name b) = true ->
      atna_scan w client account cs uid s = atna_answer w client account c b s)
  /\ ((forall c b, In c cs -> In b (listing c) -> Py.str_in uid (name b) = false) ->
      atna_scan w client account cs uid s = (Ok NoMatchingObject_upload, s)
      /\ status NoMatchingObject_upload = 404%Z).
Proof.
  intros Hl. split.
  - intros pre c post before b after Hcs Hc Hpre Hno Hyes. subst cs.
    unfold atna_scan, bind.
    rewrite (atna_scan_containers_first w client account uid pre c post listing before b after s Hl Hpre Hc Hno Hyes).
    destruct (atna_answer w client account c b s) as [[response|e] s']; reflexivity.
  - intros Hno. split; [|reflexivity].
    unfold atna_scan, bind.
    rewrite (atna_scan_containers_none w client account uid cs listing s Hl Hno). reflexivity.
Qed.

Lemma C6_upload_tracking_scan_witness :
  let cs := [Some "CONTAINER_PALOALTO_1"; Some "CONTAINER_PALOALTO_2"] in
  atna_scan Demo.world (Demo.client "a") (Some "a") cs "acme-1" initial_state
  = atna_answer Demo.world (Demo.client "a") (Some "a") (Some "CONTAINER_PALOALTO_1")
      (Demo.blob "acme-1.csv" 30) initial_state
  /\ atna_scan Demo.world (Demo.client "a") (Some "a") cs "zeta" initial_state
     = (Ok NoMatchingObject_upload, initial_state).
Proof.
  intros cs.
  pose (listing := fun c => match Demo.listing "" c with Ok l => l | Raise _ => [] end).
  assert (Hl : listed Demo.world (Demo.client "a") cs listing).
  { intros c [<-|[<-|[]]]; reflexivity. }
  split.
  - destruct (C6_upload_tracking_scan Demo.world (Demo.client "a") (Some "a") cs "acme-1"
                listing initial_state Hl) as [Hfirst _].
    apply (Hfirst [] (Some "CONTAINER_PALOALTO_1") [Some "CONTAINER_PALOALTO_2"]
             [Demo.blob "broken.csv" 5; Demo.blob "other.csv" 40]
             (Demo.blob "acme-1.csv" 30) []).
    + reflexivity.
    + reflexivity.
    + intros c' b' [].
    + intros b' [<-|[<-|[]]]; reflexivity.
    + reflexivity.
  - destruct (C6_upload_tracking_scan Demo.world (Demo.client "a") (Some "a") cs "zeta"
                listing initial_state Hl) as [_ Hnone].
    apply Hnone.
    intros c b [<-|[<-|[]]] Hb; simpl in Hb;
      repeat (destruct Hb as [<-|Hb]; [reflexivity|]); contradiction.
Defined.

(* ------------------------------------------------------------------------- *)
(** * C5: the record and the entry used by the upload-tracking strategy *)
(* ------------------------------------------------------------------------- *)

Lemma max_from_spec {A : Type} (key : A -> Z) (xs : list A) (best : A) :
  let m := Py.max_from key best xs in
  (m = best \/ In m xs) /\ (key best <= key m)%Z /\ (forall x, In x xs -> (key x <= key m)%Z).
Proof.
  revert best. induction xs as [|x xs IH]; intros best; cbn [Py.max_from].
  - split; [now left|]. split; [apply Z.le_refl | intros x []].
  - destruct (IH (if (key best <? key x)%Z then x else best)) as (Hin & Hge & Hall).
    destruct (Z.ltb_spec (key best) (key x)) as [Hlt|Hle].
    + split; [right; destruct Hin as [->|Hin]; [now left | now right]|].
      split; [lia|]. intros y [<-|Hy]; [assumption | now apply Hall].
    + split; [destruct Hin as [->|Hin]; [now left | right; now right]|].
      split; [assumption|]. intros y [<-|Hy]; [lia | now apply Hall].
Qed.

Lemma max_spec {A : Type} (key : A -> Z) (xs : list A) (m : A) :
  Py.max key xs = Some m ->
  In m xs /\ (forall x, In x xs -> (key x <= key m)%Z).
Proof.
  destruct xs as [|x xs]; [discriminate|]. cbn [Py.max]. intros H. inversion H as [Hm].
  destruct (max_from_spec key xs x) as (Hin & Hge & Hall).
  split.
  - destruct Hin as [->|Hin]; [now left | now right].
  - intros y [<-|Hy]; [assumption | now apply Hall].
Qed.

Lemma max_none {A : Type} (key : A -> Z) (xs : list A) :
  Py.max key xs = None <-> xs = [].
Proof. destruct xs; cbn [Py.max]; split; intros H; congruence. Qed.

Lemma find_one_sorted_desc_none {D : Type} (matches : D -> bool) (key : D -> Z) coll :
  find_one_sorted_desc matches key coll = None <->
  (forall d, In d coll -> matches d = false).
Proof.
  unfold find_one_sorted_desc. rewrite max_none. split.
  - intros H d Hd. destruct (matches d) eqn:Hm; [|reflexivity].
    assert (Hin : In d (filter matches coll)) by (apply filter_In; now split).
    rewrite H in Hin. contradiction.
  - intros H. induction coll as [|d coll IH]; [reflexivity|].
    cbn [filter]. rewrite (H d (or_introl eq_refl)). apply IH.
    intros d' Hd'. apply H. now right.
Qed.

Lemma find_one_sorted_desc_some {D : Type} (matches : D -> bool) (key : D -> Z) coll d :
  find_one_sorted_desc matches key coll = Some d ->
  In d coll /\ matches d = true /\
  (forall d', In d' coll -> matches d' = true -> (key d' <= key d)%Z).
Proof.
  unfold find_one_sorted_desc. intros H. apply max_spec in H. destruct H as [Hin Hmax].
  apply filter_In in Hin. destruct Hin as [Hin Hm].
  repeat split; try assumption.
  intros d' Hd' Hm'. apply Hmax. apply filter_In. now split.
Qed.

(** C5: the upload-tracking strategy works from a record of the client whose
    creation timestamp is the greatest among the client's records.  Without
    any record of the client, or when that record has no entry list or an
    empty one, it answers [NoUploadRecord] (status 404); otherwise the scan is
    run with the upload identifier of the first entry of that record. *)
Theorem C5_upload_tracking_latest_record_first_entry
    (w : World) (client : BlobServiceClient) (app_name company_id : string) (s : State) :
  ((forall r, In r (upload_collection w) -> ur_company_id r <> company_id) ->
   handle_atna_download w client app_name company_id s = (Ok NoUploadRecord, s)
   /\ status NoUploadRecord = 404%Z)
  /\
  (forall r0, In r0 (upload_collection w) -> ur_company_id r0 = company_id ->
   exists latest,
     In latest (upload_collection w)
     /\ ur_company_id latest = company_id
     /\ (forall r, In r (upload_collection w) -> ur_company_id r = company_id ->
                   (created_on r <= created_on latest)%Z)
     /\ match asset_add_uploads latest with
        | None | Some [] =>
            handle_atna_download w client app_name company_id s = (Ok NoUploadRecord, s)
        | Some (first :: _) =>
            forall uid, upload_id first = Some uid ->
              handle_atna_download w client app_name company_id s
              = (info <- mapping_item w app_name ;;
                 atna_scan w client (account_name info) (containers info) uid) s
        end).
Proof.
  split.
  - intros Hnone. split; [|reflexivity].
    unfold handle_atna_download.
    replace (find_one_sorted_desc _ _ _) with (@None UploadRecord); [reflexivity|].
    symmetry. apply find_one_sorted_desc_none.
    intros r Hr. apply String.eqb_neq. now apply Hnone.
  - intros r0 Hr0 Hc0.
    destruct (find_one_sorted_desc (fun r => ur_company_id r =? company_id) created_on
                (upload_collection w)) as [latest|] eqn:Hfind.
    + destruct (find_one_sorted_desc_some _ _ _ _ Hfind) as (Hin & Hm & Hmax).
      exists latest. split; [assumption|]. split; [now apply String.eqb_eq|].
      split.
      * intros r Hr Hc. apply Hmax; [assumption|]. now apply String.eqb_eq.
      * unfold handle_atna_download. rewrite Hfind.
        destruct (asset_add_uploads latest) as [[|first others]|]; try reflexivity.
        intros uid Huid. rewrite Huid. reflexivity.
    + exfalso. rewrite find_one_sorted_desc_none in Hfind.
      specialize (Hfind r0 Hr0). cbv beta in Hfind.
      apply String.eqb_neq in Hfind. contradiction.
Qed.

Lemma C5_upload_tracking_latest_record_first_entry_witness :
  (exists latest,
     In latest (upload_collection Demo.world)
     /\ ur_company_id latest = "ACME"
     /\ (forall r, In r (upload_collection Demo.world) -> ur_company_id r = "ACME" ->
                   (created_on r <= created_on latest)%Z)
     /\ match asset_add_uploads latest with
        | None | Some [] =>
            handle_atna_download Demo.world (Demo.client "a") "ATnA" "ACME" initial_state
            = (Ok NoUploadRecord, initial_state)
        | Some (first :: _) =>
            forall uid, upload_id first = Some uid ->
              handle_atna_download Demo.world (Demo.client "a") "ATnA" "ACME" initial_state
              = (info <- mapping_item Demo.world "ATnA" ;;
                 atna_scan Demo.world (Demo.client "a") (account_name info)
                   (containers info) uid) initial_state
        end)
  /\ handle_atna_download Demo.world (Demo.client "a") "ATnA" "NOBODY" initial_state
     = (Ok NoUploadRecord, initial_state).
Proof.
  split.
  - apply (proj2 (C5_upload_tracking_latest_record_first_entry Demo.world (Demo.client "a")
                    "ATnA" "ACME" initial_state)
             {| ur_company_id := "ACME"; created_on := 100;
                asset_add_uploads := Some [{| upload_id := Some "other" |}] |}).
    + left. reflexivity.
    + reflexivity.
  - apply (proj1 (C5_upload_tracking_latest_record_first_entry Demo.world (Demo.client "a")
                    "ATnA" "NOBODY" initial_state)).
    intros r Hr. simpl in Hr.
    repeat (destruct Hr as [<-|Hr]; [discriminate|]). contradiction.
Defined.

(* ------------------------------------------------------------------------- *)
(** * C4: the choice of the recency strategy *)
(* ------------------------------------------------------------------------- *)

Section RecencyScan.

Variable listing : option string -> list BlobProperties.
Variable company_id : string.

Lemma filter_nil_none (blobs : list BlobProperties) :
  filter (name_has company_id) blobs = [] -> forall b, In b blobs -> name_has company_id b = false.
Proof.
  intros H b Hb. destruct (name_has company_id b) eqn:Hm; [|reflexivity].
  assert (Hin : In b (filter (name_has company_id) blobs)) by (apply filter_In; now split).
  rewrite H in Hin. contradiction.
Qed.

(** One container more: the pick over [seen] becomes the pick over
    [seen ++ [c]]. *)
Lemma latest_update_pick seen c latest :
  recency_pick listing company_id seen latest ->
  recency_pick listing company_id (seen ++ [c])%list
    (latest_update company_id c (listing c) latest).
Proof.
  intros Hpick. unfold latest_update. fold (name_has company_id).
  destruct (Py.max last_modified (filter (name_has company_id) (listing c))) as [m|] eqn:Hmax.
  - apply max_spec in Hmax. destruct Hmax as [Hin Hge].
    apply filter_In in Hin. destruct Hin as [Hin Hm].
    assert (Hc : forall b', In b' (listing c) -> name_has company_id b' = true ->
                            (last_modified b' <= last_modified m)%Z).
    { intros b' Hb' Hm'. apply Hge. apply filter_In. now split. }
    destruct latest as [[b c0]|].
    + destruct Hpick as (pre & post & Hseen & Hb & Hmb & Hall & Hstrict).
      destruct (Z.ltb_spec (last_modified b) (last_modified m)) as [Hlt|Hle].
      * exists seen, []. repeat split; try assumption.
        -- intros c' b' Hc' Hb' Hm'. apply in_app_or in Hc'.
           destruct Hc' as [Hc'|[<-|[]]]; [|now apply Hc].
           specialize (Hall c' b' Hc' Hb' Hm'). lia.
        -- intros c' b' Hc' Hb' Hm'. specialize (Hall c' b' Hc' Hb' Hm'). lia.
      * exists pre, (post ++ [c])%list. repeat split; try assumption.
        -- rewrite Hseen, <- app_assoc. reflexivity.
        -- intros c' b' Hc' Hb' Hm'. apply in_app_or in Hc'.
           destruct Hc' as [Hc'|[<-|[]]]; [now apply (Hall c')|].
           specialize (Hc b' Hb' Hm'). lia.
    + exists seen, []. repeat split; try assumption.
      * intros c' b' Hc' Hb' Hm'. apply in_app_or in Hc'.
        destruct Hc' as [Hc'|[<-|[]]]; [|now apply Hc].
        simpl in Hpick. unfold name_has in Hm'. rewrite (Hpick c' b' Hc' Hb') in Hm'.
        discriminate.
      * intros c' b' Hc' Hb' Hm'.
        simpl in Hpick. unfold name_has in Hm'. rewrite (Hpick c' b' Hc' Hb') in Hm'.
        discriminate.
  - apply max_none in Hmax.
    assert (Hc : forall b', In b' (listing c) -> name_has company_id b' = false)
      by (now apply filter_nil_none).
    destruct latest as [[b c0]|].
    + destruct Hpick as (pre & post & Hseen & Hb & Hmb & Hall & Hstrict).
      exists pre, (post ++ [c])%list. repeat split; try assumption.
      * rewrite Hseen, <- app_assoc. reflexivity.
      * intros c' b' Hc' Hb' Hm'. apply in_app_or in Hc'.
        destruct Hc' as [Hc'|[<-|[]]]; [now apply (Hall c')|].
        unfold name_has in Hc. rewrite (Hc b' Hb') in Hm'. discriminate.
    + intros c' b' Hc' Hb'. apply in_app_or in Hc'.
      destruct Hc' as [Hc'|[<-|[]]]; [now apply (Hpick c')|now apply Hc].
Qed.

Lemma latest_after_pick cs seen latest :
  recency_pick listing company_id seen latest ->
  recency_pick listing company_id (seen ++ cs)%list
    (latest_after listing company_id cs latest).
Proof.
  revert seen latest. induction cs as [|c cs IH]; intros seen latest Hpick.
  - rewrite app_nil_r. exact Hpick.
  - cbn [latest_after fold_left].
    replace (seen ++ c :: cs)%list with ((seen ++ [c]) ++ cs)%list
      by (rewrite <- app_assoc; reflexivity).
    apply (IH (seen ++ [c])%list). now apply latest_update_pick.
Qed.

Lemma latest_scan_run w client cs latest s :
  listed w client cs listing ->
  for_in cs latest (fun container_name latest =>
    blobs <- list_blobs w client container_name None ;;
    ret (Next (R := Response) (latest_update company_id container_name blobs latest))) s
  = (Ok (inl (latest_after listing company_id cs latest)), s).
Proof.
  revert latest. induction cs as [|c cs IH]; intros latest Hl; [reflexivity|].
  cbn [for_in latest_after fold_left]. unfold bind at 1. unfold bind at 1.
  rewrite (list_blobs_ok w client c _ None s (Hl c (or_introl eq_refl))).
  unfold ret at 1. apply IH. intros c' Hc'. apply Hl. now right.
Qed.

End RecencyScan.

(** C4: over the objects whose names contain [company_id], the recency scan
    picks one of greatest last-modified timestamp (so within a container the
    later timestamp wins); every matching object of a container configured
    before the chosen one is strictly older, that is, on equal greatest
    timestamps the earlier container wins.  The handler then answers with a
    link for that very object, or with the empty success when there is no
    matching object. *)
Theorem C4_recency_choice
    (w : World) (client : BlobServiceClient) (cs : list (option string))
    (company_id : string) (listing : option string -> list BlobProperties) (s : State) :
  listed w client cs listing ->
  exists chosen,
    latest_scan w client cs company_id s = (Ok (inl chosen), s)
    /\ recency_pick listing company_id cs chosen
    /\ (forall app_name info,
          Py.dict_get (app_container_mapping w) app_name = Some info ->
          containers info = cs ->
          handle_latest_blob_download w client app_name company_id s =
            match chosen with
            | None => (Ok Empty_recency, s)
            | Some (b, c) => recency_answer w client (account_name info) c b s
            end).
Proof.
  intros Hl. exists (latest_after listing company_id cs None).
  assert (Hrun : latest_scan w client cs company_id s
                 = (Ok (inl (latest_after listing company_id cs None)), s)).
  { unfold latest_scan. now apply latest_scan_run. }
  split; [exact Hrun|]. split.
  - apply (latest_after_pick listing company_id cs [] None). intros c b [].
  - intros app_name info Hinfo Hcs.
    unfold handle_latest_blob_download, mapping_item. rewrite Hinfo.
    unfold bind at 1. unfold ret at 1. unfold bind at 1. rewrite Hcs, Hrun.
    destruct (latest_after listing company_id cs None) as [[b c]|]; reflexivity.
Qed.

Lemma C4_recency_choice_witness :
  let cs := [Some "CONTAINER_PALOALTO_1"; Some "CONTAINER_PALOALTO_2"] in
  let listing := fun c => match Demo.listing "" c with Ok l => l | Raise _ => [] end in
  exists chosen,
    latest_scan Demo.world (Demo.client "a") cs "acme" initial_state
    = (Ok (inl chosen), initial_state)
    /\ recency_pick listing "acme" cs chosen
    /\ (forall app_name info,
          Py.dict_get (app_container_mapping Demo.world) app_name = Some info ->
          containers info = cs ->
          handle_latest_blob_download Demo.world (Demo.client "a") app_name "acme"
            initial_state =
            match chosen with
            | None => (Ok Empty_recency, initial_state)
            | Some (b, c) =>
                recency_answer Demo.world (Demo.client "a") (account_name info) c b
                  initial_state
            end).
Proof.
  intros cs listing.
  apply (C4_recency_choice Demo.world (Demo.client "a") cs "acme" listing initial_state).
  intros c [<-|[<-|[]]]; reflexivity.
Defined.

(* ------------------------------------------------------------------------- *)
(** * C2: the scan of the processed-workbook strategy *)
(* ------------------------------------------------------------------------- *)

Section WorkbookScan.

Variable w : World.
Variable client : BlobServiceClient.
Variable account : option string.
Variable listing : option string -> list BlobProperties.

Lemma issue_links_app t1 t2 acc s :
  issue_links w client account (t1 ++ t2)%list acc s =
    match issue_links w client account t1 acc s with
    | (Ok links, s') => issue_links w client account t2 links s'
    | (Raise e, s') => (Raise e, s')
    end.
Proof.
  revert acc s. induction t1 as [|[c f] t1 IH]; intros acc s; [reflexivity|].
  cbn [app issue_links]. unfold bind.
  destruct (generate_sas_url w client account c f default_expiry_minutes s)
    as [[url|e] s']; [apply IH | reflexivity].
Qed.

Lemma issue_links_cons c f rest acc s :
  issue_links w client account ((c, f) :: rest) acc s =
    match generate_sas_url w client account c f default_expiry_minutes s with
    | (Ok url, s') =>
        issue_links w client account rest
          (acc ++ [{| file := f; download_url := url |}])%list s'
    | (Raise e, s') => (Raise e, s')
    end.
Proof. reflexivity. Qed.

(** The links issued carry the names of the targets, in order. *)
Lemma issue_links_files targets acc s links s' :
  issue_links w client account targets acc s = (Ok links, s') ->
  map file links = (map file acc ++ map snd targets)%list.
Proof.
  revert acc s. induction targets as [|[c f] targets IH]; intros acc s.
  - cbn [issue_links]. unfold ret. intros H. inversion H.
    cbn [map]. now rewrite app_nil_r.
  - cbn [issue_links]. unfold bind.
    destruct (generate_sas_url w client account c f default_expiry_minutes s)
      as [[url|e] s1]; [|discriminate].
    intros H. apply IH in H. rewrite H, map_app. cbn [map file snd].
    rewrite <- app_assoc. reflexivity.
Qed.

(** The blob loop: a link for [f] is appended when the listing holds an
    object named [f], once, whatever follows that object. *)
Lemma f5_checkpoint_scan_blobs_run c f blob_list acc s :
  f5_checkpoint_scan_blobs w client account c f blob_list acc s =
    if has_exact blob_list f
    then as_locals (issue_links w client account [(c, f)] acc s)
    else (Ok (inl acc), s).
Proof.
  unfold f5_checkpoint_scan_blobs, has_exact.
  induction blob_list as [|b blob_list IH]; [reflexivity|].
  cbn [for_in existsb]. unfold bind at 1.
  destruct (name b =? f) eqn:Hname; cbn [orb].
  - cbn [issue_links]. unfold bind, ret.
    destruct (generate_sas_url w client account c f default_expiry_minutes s)
      as [[url|e] s']; reflexivity.
  - unfold ret at 1. exact IH.
Qed.

Lemma has_exact_prefix_listing blobs f :
  has_exact (filter (fun b => String.prefix f (name b)) blobs) f = has_exact blobs f.
Proof.
  unfold has_exact. induction blobs as [|b blobs IH]; [reflexivity|].
  cbn [filter existsb].
  destruct (String.eqb_spec (name b) f) as [Heq|Hne].
  - rewrite Heq, prefix_refl. cbn [existsb]. rewrite Heq, String.eqb_refl. reflexivity.
  - destruct (String.prefix f (name b)); cbn [existsb orb]; [|exact IH].
    destruct (String.eqb_spec (name b) f); [contradiction|]. exact IH.
Qed.

(** The container loop for one filename, over any list of containers: one
    link per container that holds an object of that name. *)
Lemma f5_checkpoint_scan_containers_run cs f acc s :
  listed w client cs listing ->
  f5_checkpoint_scan_containers w client account cs f acc s =
    as_locals (issue_links w client account
                 (map (fun c => (c, f)) (filter (fun c => has_exact (listing c) f) cs))
                 acc s).
Proof.
  unfold f5_checkpoint_scan_containers.
  revert acc s. induction cs as [|c cs IH]; intros acc s Hl; [reflexivity|].
  assert (Hl' : listed w client cs listing) by (intros c' Hc'; apply Hl; now right).
  cbn [for_in filter]. unfold bind at 1. unfold bind at 1.
  rewrite (list_blobs_ok w client c _ (Some f) s (Hl c (or_introl eq_refl))).
  unfold bind at 1.
  rewrite f5_checkpoint_scan_blobs_run, has_exact_prefix_listing.
  destruct (has_exact (listing c) f).
  - cbn [map]. rewrite !issue_links_cons.
    destruct (generate_sas_url w client account c f default_expiry_minutes s)
      as [[url|e] s']; [|reflexivity].
    cbn [issue_links as_locals]. unfold ret at 1 2. cbn [after_loop].
    apply IH. exact Hl'.
  - unfold ret at 1. cbn [after_loop]. apply IH. exact Hl'.
Qed.

(** The whole scan, over any list of containers. *)
Lemma f5_checkpoint_scan_run cs files acc s :
  listed w client cs listing ->
  for_in files acc (fun blob_name sas_links =>
    r <- f5_checkpoint_scan_containers w client account cs blob_name sas_links ;;
    ret (after_loop (R := Response) r)) s
  = as_locals (issue_links w client account (every_match_targets listing cs files) acc s).
Proof.
  intros Hl. revert acc s. induction files as [|f files IH]; intros acc s; [reflexivity|].
  cbn [for_in every_match_targets flat_map]. unfold bind at 1. unfold bind at 1.
  rewrite (f5_checkpoint_scan_containers_run cs f acc s Hl), issue_links_app.
  destruct (issue_links w client account _ acc s) as [[links|e] s'];
    cbn [as_locals]; [|reflexivity].
  unfold ret at 1. cbn [after_loop]. apply IH.
Qed.

End WorkbookScan.

(** With a single container, every match is the first match. *)
Lemma every_match_single listing c files :
  every_match_targets listing [c] files = first_match_targets listing [c] files.
Proof.
  unfold every_match_targets, first_match_targets, first_container_with.
  induction files as [|f files IH]; [reflexivity|].
  cbn [flat_map]. rewrite IH. f_equal.
  cbn [filter find]. destruct (has_exact (listing c) f); reflexivity.
Qed.

Lemma first_match_targets_names listing cs files :
  map snd (first_match_targets listing cs files) =
  filter (fun f => existsb (fun c => has_exact (listing c) f) cs) files.
Proof.
  unfold first_match_targets, first_container_with.
  induction files as [|f files IH]; [reflexivity|].
  cbn [flat_map filter]. rewrite map_app, IH.
  destruct (find (fun c => has_exact (listing c) f) cs) as [c|] eqn:Hfind.
  - apply find_some in Hfind. destruct Hfind as [Hin Hhas].
    replace (existsb (fun c => has_exact (listing c) f) cs) with true; [reflexivity|].
    symmetry. apply existsb_exists. now exists c.
  - replace (existsb (fun c => has_exact (listing c) f) cs) with false; [reflexivity|].
    symmetry. apply not_true_is_false. intros Hex. apply existsb_exists in Hex.
    destruct Hex as (c & Hin & Hhas).
    pose proof (find_none _ _ Hfind c Hin) as Hno. cbv beta in Hno. congruence.
Qed.

Lemma keep_truthy_spec fields f :
  In f (keep_truthy fields) <-> In (Some f) fields /\ f <> "".
Proof.
  induction fields as [|[g|] fields IH]; cbn [keep_truthy Py.truthy In].
  - tauto.
  - destruct (String.eqb_spec g "") as [->|Hne].
    + rewrite IH. split; [tauto|]. intros [[H|H] Hf]; [congruence | tauto].
    + cbn [In]. rewrite IH. split.
      * intros [<-|[H Hf]]; [split; [now left | assumption] | tauto].
      * intros [[H|H] Hf]; [left; congruence | tauto].
  - rewrite IH. split; [tauto|]. intros [[H|H] Hf]; [discriminate | tauto].
Qed.

Lemma workbook_containers_single w app_name info :
  Py.dict_get (app_container_mapping w) app_name = Some info ->
  app_name = "F5" \/ app_name = "CHECKPOINT" ->
  exists c, containers info = [c].
Proof.
  intros Hinfo [-> | ->]; vm_compute in Hinfo; inversion Hinfo; eexists; reflexivity.
Qed.

Lemma workbook_fields_other app_name record :
  app_name <> "F5" -> app_name <> "CHECKPOINT" -> workbook_fields app_name record = [].
Proof.
  intros H1 H2. unfold workbook_fields.
  destruct (String.eqb_spec app_name "F5"); [contradiction|].
  destruct (String.eqb_spec app_name "CHECKPOINT"); [contradiction|]. reflexivity.
Qed.

(** C2: in the processed-workbook strategy the filenames looked for are the
    non-empty workbook fields of the record.  For each of them, taken on its
    own, the scan keeps the object of exactly that name in the first
    configured container that holds one, and issues one link for it: the
    files of the answer are the configured filenames that some container
    holds, each at most once and in the order of the fields. *)
Theorem C2_processed_workbook_first_exact_match
    (w : World) (client : BlobServiceClient) (app_name company_id : string)
    (info : Profile) (record : GenericRecord)
    (listing : option string -> list BlobProperties) (s : State) :
  Py.dict_get (app_container_mapping w) app_name = Some info ->
  find_one (fun r => gr_company_id r =? company_id) (generic_collection w) = Some record ->
  listed w client (containers info) listing ->
  let files := keep_truthy (workbook_fields app_name record) in
  let targets := first_match_targets listing (containers info) files in
  (forall f, In f files <-> In (Some f) (workbook_fields app_name record) /\ f <> "")
  /\ (forall c f, In (c, f) targets ->
                  In f files /\ first_container_with listing (containers info) f = Some c)
  /\ map snd targets
     = filter (fun f => existsb (fun c => has_exact (listing c) f) (containers info)) files
  /\ handle_f5_checkpoint_download w client app_name company_id s
     = match files with
       | [] => (Ok NoFilenamesConfigured, s)
       | _ :: _ => workbook_answer (issue_links w client (account_name info) targets [] s)
       end
  /\ (forall links s',
        issue_links w client (account_name info) targets [] s = (Ok links, s') ->
        map file links = map snd targets).
Proof.
  intros Hinfo Hrec Hl files targets.
  split; [intros f; apply keep_truthy_spec|].
  split.
  { intros c f Hin. unfold targets, first_match_targets in Hin.
    apply in_flat_map in Hin. destruct Hin as (f' & Hf' & Hin).
    destruct (first_container_with listing (containers info) f') as [c'|] eqn:Hfirst;
      [|contradiction].
    destruct Hin as [Heq|[]]. inversion Heq; subst. now split. }
  split; [apply first_match_targets_names|].
  split.
  - unfold handle_f5_checkpoint_download. rewrite Hrec. fold files.
    destruct files as [|f0 files'] eqn:Hfiles; [reflexivity|].
    assert (Happ : app_name = "F5" \/ app_name = "CHECKPOINT").
    { destruct (String.eqb_spec app_name "F5") as [|H1]; [now left|].
      destruct (String.eqb_spec app_name "CHECKPOINT") as [|H2]; [now right|].
      unfold files in Hfiles. rewrite (workbook_fields_other _ record H1 H2) in Hfiles.
      discriminate. }
    destruct (workbook_containers_single w app_name info Hinfo Happ) as [c Hc].
    unfold mapping_item. rewrite Hinfo. unfold bind at 1. unfold ret at 1.
    unfold bind at 1. unfold f5_checkpoint_scan.
    rewrite (f5_checkpoint_scan_run w client (account_name info) listing
               (containers info) (f0 :: files') [] s Hl).
    subst targets. rewrite Hc, every_match_single.
    destruct (issue_links w client (account_name info)
                (first_match_targets listing [c] (f0 :: files')) [] s)
      as [[[|l links]|e] s']; reflexivity.
  - intros links s' H. apply issue_links_files in H. exact H.
Qed.

Lemma C2_processed_workbook_first_exact_match_witness :
  let w := Demo.world in
  let client := Demo.client "AZURE_STORAGE_ACCOUNT_NAME_F5" in
  let info := {| containers := [Some "CONTAINER_F5"];
                 account_name := Some "AZURE_STORAGE_ACCOUNT_NAME_F5" |} in
  let listing := fun c => match Demo.listing "" c with Ok l => l | Raise _ => [] end in
  let targets := first_match_targets listing (containers info) ["acme-1.csv"] in
  map snd targets = ["acme-1.csv"]
  /\ handle_f5_checkpoint_download w client "F5" "ACME" initial_state
     = workbook_answer (issue_links w client (account_name info) targets [] initial_state).
Proof.
  intros w client info listing targets.
  destruct (C2_processed_workbook_first_exact_match w client "F5" "ACME" info
              Demo.acme_record
              listing initial_state)
    as (_ & _ & Hnames & Hrun & _).
  - reflexivity.
  - reflexivity.
  - intros c [<-|[]]. reflexivity.
  - split; [exact Hnames | exact Hrun].
Defined.

(* ------------------------------------------------------------------------- *)
(** * C7: the scan of the content-match strategy *)
(* ------------------------------------------------------------------------- *)

Section ContentMatchScan.

Variable w : World.
Variable client : BlobServiceClient.
Variable account : option string.
Variable csp : string.

(** The loop body, case by case. *)
Lemma paloalto_process_blob_run c b acc s :
  paloalto_process_blob w client account c csp b acc s =
    match blob_content w (account_url client) c (name b) with
    | Raise e => (Ok acc, warned s b e)
    | Ok data =>
        match read_csv w data with
        | Raise e => (Ok acc, warned s b e)
        | Ok df =>
            match column_has df csp with
            | Some true =>
                match generate_sas_url w client account c (name b)
                        default_expiry_minutes s with
                | (Ok url, s') =>
                    (Ok (acc ++ [{| file := name b; download_url := url |}])%list, s')
                | (Raise e, s') => (Ok acc, warned s' b e)
                end
            | Some false | None => (Ok acc, s)
            end
        end
    end.
Proof.
  unfold paloalto_process_blob, try_except, bind, call.
  destruct (blob_content w (account_url client) c (name b)) as [data|e]; [|reflexivity].
  destruct (read_csv w data) as [df|e]; [|reflexivity].
  destruct (column_has df csp) as [[|]|]; try reflexivity.
  destruct (generate_sas_url w client account c (name b) default_expiry_minutes s)
    as [[url|e] s']; reflexivity.
Qed.

(** One object: the body never raises, it only appends to the result and to
    the log. *)
Lemma paloalto_process_blob_step c b acc s :
  exists extra newlog s',
    paloalto_process_blob w client account c csp b acc s = (Ok (acc ++ extra)%list, s')
    /\ log s' = (log s ++ newlog)%list
    /\ (forall e, blob_content w (account_url client) c (name b) = Raise e ->
                  In (process_warning b e) newlog)
    /\ (forall data e, blob_content w (account_url client) c (name b) = Ok data ->
                       read_csv w data = Raise e -> In (process_warning b e) newlog)
    /\ (content_matches w client c csp b = true ->
        issuable w client account c (name b) ->
        exists url, In {| file := name b; download_url := url |} extra)
    /\ (forall fl, In fl extra ->
                   content_matches w client c csp b = true /\ file fl = name b).
Proof.
  rewrite paloalto_process_blob_run. unfold content_matches.
  destruct (blob_content w (account_url client) c (name b)) as [data|e] eqn:Hdata.
  2:{ exists [], [process_warning b e], (warned s b e). rewrite app_nil_r.
      repeat split; try discriminate; try contradiction.
      intros e' He'. inversion He'. now left. }
  destruct (read_csv w data) as [df|e] eqn:Hdf.
  2:{ exists [], [process_warning b e], (warned s b e). rewrite app_nil_r.
      repeat split; try discriminate; try contradiction.
      intros data' e' Hd' He'. inversion Hd'; subst data'.
      rewrite Hdf in He'. inversion He'. now left. }
  assert (Hparse : forall data' e', Ok data = Ok data' ->
                     read_csv w data' = Raise e' -> In (process_warning b e') []).
  { intros data' e' Hd' He'. inversion Hd'; subst data'. congruence. }
  destruct (column_has df csp) as [[|]|].
  - destruct (generate_sas_url w client account c (name b) default_expiry_minutes s)
      as [[url|e] s'] eqn:Hgen.
    + exists [{| file := name b; download_url := url |}], [], s'.
      rewrite app_nil_r.
      split; [reflexivity|]. split; [now apply generate_sas_url_log in Hgen|].
      split; [discriminate|]. split; [exact Hparse|]. split.
      * intros _ _. exists url. now left.
      * intros fl [<-|[]]. now split.
    + exists [], [process_warning b e], (warned s' b e). rewrite app_nil_r.
      split; [reflexivity|].
      split; [cbn [warned log]; now rewrite (generate_sas_url_log _ _ _ _ _ _ _ _ _ Hgen)|].
      split; [discriminate|].
      split; [intros data' e' Hd' He'; inversion Hd'; subst data'; congruence|].
      split; [|intros fl []].
      intros _ Hissuable. destruct (Hissuable s) as (url & s1 & Hok). congruence.
  - exists [], [], s. rewrite !app_nil_r.
    repeat split; try discriminate; try contradiction. exact Hparse.
  - exists [], [], s. rewrite !app_nil_r.
    repeat split; try discriminate; try contradiction. exact Hparse.
Qed.

(** Any sequence of objects: every one of them is processed. *)
Lemma process_all_spec objects acc s :
  exists extra newlog s',
    process_all w client account csp objects acc s = (Ok (acc ++ extra)%list, s')
    /\ log s' = (log s ++ newlog)%list
    /\ (forall c b, In (c, b) objects ->
          (forall e, blob_content w (account_url client) c (name b) = Raise e ->
                     In (process_warning b e) newlog)
          /\ (forall data e, blob_content w (account_url client) c (name b) = Ok data ->
                             read_csv w data = Raise e -> In (process_warning b e) newlog)
          /\ (content_matches w client c csp b = true ->
              issuable w client account c (name b) ->
              exists url, In {| file := name b; download_url := url |} extra))
    /\ (forall fl, In fl extra ->
          exists c b, In (c, b) objects
                      /\ content_matches w client c csp b = true /\ file fl = name b).
Proof.
  revert acc s. induction objects as [|[c b] objects IH]; intros acc s.
  - exists [], [], s. cbn [process_all]. rewrite !app_nil_r.
    repeat split; try contradiction.
  - destruct (paloalto_process_blob_step c b acc s)
      as (ex1 & nl1 & s1 & Hstep & Hlog1 & Hdl & Hparse & Hhit & Hsound).
    destruct (IH (acc ++ ex1)%list s1) as (ex2 & nl2 & s2 & Hrest & Hlog2 & Hobj & Hsound2).
    exists (ex1 ++ ex2)%list, (nl1 ++ nl2)%list, s2.
    split.
    { cbn [process_all]. unfold bind. rewrite Hstep, Hrest, app_assoc. reflexivity. }
    split; [rewrite Hlog2, Hlog1, app_assoc; reflexivity|].
    split.
    + intros c' b' [Heq|Hin].
      * inversion Heq; subst c' b'. repeat split.
        -- intros e He. apply in_or_app. left. now apply Hdl.
        -- intros data e Hd He. apply in_or_app. left. now apply (Hparse data).
        -- intros Hm Hi. destruct (Hhit Hm Hi) as [url Hurl].
           exists url. apply in_or_app. now left.
      * destruct (Hobj c' b' Hin) as (H1 & H2 & H3). repeat split.
        -- intros e He. apply in_or_app. right. now apply H1.
        -- intros data e Hd He. apply in_or_app. right. now apply (H2 data).
        -- intros Hm Hi. destruct (H3 Hm Hi) as [url Hurl].
           exists url. apply in_or_app. now right.
    + intros fl Hfl. apply in_app_or in Hfl. destruct Hfl as [Hfl|Hfl].
      * destruct (Hsound fl Hfl) as [Hm Hf]. exists c, b. split; [now left|]. now split.
      * destruct (Hsound2 fl Hfl) as (c' & b' & Hin & Hm & Hf).
        exists c', b'. split; [now right|]. now split.
Qed.

Lemma process_all_app o1 o2 acc s :
  process_all w client account csp (o1 ++ o2)%list acc s =
    match process_all w client account csp o1 acc s with
    | (Ok files, s') => process_all w client account csp o2 files s'
    | (Raise e, s') => (Raise e, s')
    end.
Proof.
  revert acc s. induction o1 as [|[c b] o1 IH]; intros acc s; [reflexivity|].
  cbn [app process_all]. unfold bind.
  destruct (paloalto_process_blob w client account c csp b acc s) as [[files|e] s'];
    [apply IH | reflexivity].
Qed.

Lemma paloalto_scan_blobs_run c blobs acc s :
  paloalto_scan_blobs w client account c csp blobs acc s =
    as_locals (process_all w client account csp (map (fun b => (c, b)) blobs) acc s).
Proof.
  unfold paloalto_scan_blobs.
  revert acc s. induction blobs as [|b blobs IH]; intros acc s; [reflexivity|].
  cbn [for_in map process_all]. unfold bind.
  destruct (paloalto_process_blob w client account c csp b acc s) as [[files|e] s'];
    [|reflexivity].
  unfold ret at 1. apply IH.
Qed.

(** The scan processes every object of every container, in order. *)
Lemma paloalto_scan_run cs listing acc s :
  listed w client cs listing ->
  for_in cs acc (fun container_name matching_files =>
    blobs <- list_blobs w client container_name None ;;
    r <- paloalto_scan_blobs w client account container_name csp blobs matching_files ;;
    ret (after_loop (R := Response) r)) s
  = as_locals (process_all w client account csp (all_objects listing cs) acc s).
Proof.
  revert acc s. induction cs as [|c cs IH]; intros acc s Hl; [reflexivity|].
  cbn [for_in all_objects flat_map]. unfold bind at 1. unfold bind at 1.
  rewrite (list_blobs_ok w client c _ None s (Hl c (or_introl eq_refl))).
  unfold bind at 1. rewrite paloalto_scan_blobs_run, process_all_app.
  destruct (process_all w client account csp (map (fun b => (c, b)) (listing c)) acc s)
    as [[files|e] s']; cbn [as_locals]; [|reflexivity].
  unfold ret at 1. cbn [after_loop]. apply IH. intros c' Hc'. apply Hl. now right.
Qed.

End ContentMatchScan.

Lemma in_all_objects listing cs c b :
  In (c, b) (all_objects listing cs) <-> In c cs /\ In b (listing c).
Proof.
  unfold all_objects. rewrite in_flat_map. split.
  - intros (c' & Hc' & Hin). apply in_map_iff in Hin. destruct Hin as (b' & Heq & Hb').
    inversion Heq; subst. now split.
  - intros [Hc Hb]. exists c. split; [assumption|]. apply in_map_iff. now exists b.
Qed.

(** C7 (evaluation of the code where it departs from the claim): in a world
    where signing a link for [acme-1.csv] is refused, the object [acme-1.csv]
    of the first container can be downloaded and parsed and its normalized
    account column holds the normalized target, yet the answer of the view
    (status 200) lists [acme-2.csv] only.  The link is issued inside the [try]
    block of the loop body (line 215): the failure of the issuer is caught by
    the [except] of line 217, logged as a warning like a download or parse
    failure, and the matching object is left out of the result. *)
Theorem C7_matching_object_dropped :
  let w := Demo.world_refusing in
  let client := Demo.client "AZURE_STORAGE_ACCOUNT_NAME_PALOALTO" in
  let table := [("Region", [Some "eu"; Some "us"]);
                ("CSP Acct Name", [Some " Acme "; None])] in
  blob_content w (account_url client) (Some "CONTAINER_PALOALTO_1") "acme-1.csv"
  = Ok [byte_of_ascii "a"%char]
  /\ read_csv w [byte_of_ascii "a"%char] = Ok table
  /\ column_has table (normalize "ACME  ") = Some true
  /\ In (Demo.blob "acme-1.csv" 30)
        (match container_blobs w (account_url client) (Some "CONTAINER_PALOALTO_1") with
         | Ok blobs => blobs
         | Raise _ => []
         end)
  /\ download_latest_files w (Some "PALOALTO") (Some "ACME") initial_state
     = (Ok (jsonify
              (FilesBody "SAS links generated"
                 [{| file := "acme-2.csv";
                     download_url :=
                       "https://AZURE_STORAGE_ACCOUNT_NAME_PALOALTO.blob.core.windows.net/CONTAINER_PALOALTO_2/acme-2.csv?sig-acme-2.csv" |}])
              200),
        {| ticks := 6;
           log := [(WARNING, "Failed to process blob broken.csv: Error tokenizing data");
                   (WARNING, "Failed to process blob acme-1.csv: AuthorizationFailure");
                   (WARNING, "Failed to process blob acme-1.csv: AuthorizationFailure")] |}).
Proof.
  cbv zeta. split; [reflexivity|]. split; [reflexivity|]. split; [reflexivity|].
  split; [right; right; now left|]. vm_compute. reflexivity.
Qed.

(* ------------------------------------------------------------------------- *)
(** * C3: what each strategy answers when its scan finds nothing *)
(* ------------------------------------------------------------------------- *)

Lemma every_match_none listing cs files :
  (forall f c, In f files -> In c cs -> has_exact (listing c) f = false) ->
  every_match_targets listing cs files = [].
Proof.
  unfold every_match_targets. induction files as [|f files IH]; intros Hno; [reflexivity|].
  cbn [flat_map]. rewrite IH by (intros f' c Hf'; apply Hno; now right).
  rewrite app_nil_r.
  assert (Hf : forall c, In c cs -> has_exact (listing c) f = false)
    by (intros c; apply Hno; now left).
  clear IH Hno. induction cs as [|c cs IH]; [reflexivity|].
  cbn [filter]. rewrite (Hf c (or_introl eq_refl)). apply IH.
  intros c' Hc'. apply Hf. now right.
Qed.

(** C3: when the containers can be listed and the scan matches nothing, the
    content-match and the recency handlers answer with a success without files
    (status 200), whereas the upload-tracking and the processed-workbook
    handlers answer [NoMatchingObject] (status 404). *)
Theorem C3_empty_scan_outcomes
    (w : World) (client : BlobServiceClient) (app_name company_id : string)
    (info : Profile) (listing : option string -> list BlobProperties) (s : State) :
  Py.dict_get (app_container_mapping w) app_name = Some info ->
  listed w client (containers info) listing ->
  (forall record first others acct,
      find_one (fun r => gr_company_id r =? company_id) (generic_collection w)
      = Some record ->
      connection_details record = Some (first :: others) ->
      Py.truthy (csp_acct_name first) = Some acct ->
      (forall c b, In c (containers info) -> In b (listing c) ->
                   content_matches w client c (normalize acct) b = false) ->
      exists s',
        handle_paloalto_download w client app_name company_id s
        = (Ok Empty_content_match, s')
        /\ status Empty_content_match = 200%Z)
  /\ ((forall c b, In c (containers info) -> In b (listing c) ->
                   Py.str_in company_id (name b) = false) ->
      handle_latest_blob_download w client app_name company_id s = (Ok Empty_recency, s)
      /\ status Empty_recency = 200%Z)
  /\ (forall record first others uid,
        find_one_sorted_desc (fun r => ur_company_id r =? company_id) created_on
          (upload_collection w) = Some record ->
        asset_add_uploads record = Some (first :: others) ->
        upload_id first = Some uid ->
        (forall c b, In c (containers info) -> In b (listing c) ->
                     Py.str_in uid (name b) = false) ->
        handle_atna_download w client app_name company_id s
        = (Ok NoMatchingObject_upload, s)
        /\ status NoMatchingObject_upload = 404%Z)
  /\ (forall record,
        find_one (fun r => gr_company_id r =? company_id) (generic_collection w)
        = Some record ->
        keep_truthy (workbook_fields app_name record) <> [] ->
        (forall f c, In f (keep_truthy (workbook_fields app_name record)) ->
                     In c (containers info) -> has_exact (listing c) f = false) ->
        handle_f5_checkpoint_download w client app_name company_id s
        = (Ok NoMatchingObject_workbook, s)
        /\ status NoMatchingObject_workbook = 404%Z).
Proof.
  intros Hinfo Hl. split; [|split; [|split]].
  - intros record first others acct Hrec Hcd Hacct Hno.
    destruct (process_all_spec w client (account_name info) (normalize acct)
                (all_objects listing (containers info)) [] s)
      as (extra & newlog & s' & Hrun & _ & _ & Hsound).
    assert (Hextra : extra = []).
    { destruct extra as [|fl extra]; [reflexivity|]. exfalso.
      destruct (Hsound fl (or_introl eq_refl)) as (c & b & Hin & Hm & _).
      apply in_all_objects in Hin. destruct Hin as [Hc Hb].
      rewrite (Hno c b Hc Hb) in Hm. discriminate. }
    subst extra. exists s'. split; [|reflexivity].
    unfold handle_paloalto_download. rewrite Hrec, Hcd, Hacct.
    unfold mapping_item. rewrite Hinfo. unfold bind at 1. unfold ret at 1.
    unfold bind at 1. unfold paloalto_scan.
    rewrite (paloalto_scan_run w client (account_name info) (normalize acct)
               (containers info) listing [] s Hl), Hrun.
    reflexivity.
  - intros Hno. split; [|reflexivity].
    pose proof (latest_after_pick listing company_id (containers info) [] None) as Hpick.
    cbn [app] in Hpick. specialize (Hpick (fun c b (H : In c []) => match H with end)).
    unfold handle_latest_blob_download, mapping_item. rewrite Hinfo.
    unfold bind at 1. unfold ret at 1. unfold bind at 1. unfold latest_scan.
    rewrite (latest_scan_run listing company_id w client (containers info) None s Hl).
    destruct (latest_after listing company_id (containers info) None) as [[b c]|];
      [|reflexivity].
    exfalso. destruct Hpick as (pre & post & Hcs & Hb & Hm & _).
    assert (Hc : In c (containers info)).
    { rewrite Hcs. apply in_or_app. right. now left. }
    rewrite (Hno c b Hc Hb) in Hm. discriminate.
  - intros record first others uid Hrec Hup Huid Hno. split; [|reflexivity].
    unfold handle_atna_download. rewrite Hrec, Hup, Huid.
    unfold mapping_item. rewrite Hinfo.
    unfold bind at 1. unfold ret at 1. unfold bind at 1. unfold ret at 1.
    unfold atna_scan, bind.
    rewrite (atna_scan_containers_none w client (account_name info) uid
               (containers info) listing s Hl Hno).
    reflexivity.
  - intros record Hrec Hfiles Hno. split; [|reflexivity].
    unfold handle_f5_checkpoint_download. rewrite Hrec.
    destruct (keep_truthy (workbook_fields app_name record)) as [|f files] eqn:Hk;
      [contradiction|].
    unfold mapping_item. rewrite Hinfo. unfold bind at 1. unfold ret at 1.
    unfold bind at 1. unfold f5_checkpoint_scan.
    rewrite (f5_checkpoint_scan_run w client (account_name info) listing
               (containers info) (f :: files) [] s Hl).
    rewrite (every_match_none listing (containers info) (f :: files) Hno).
    reflexivity.
Qed.

Lemma C3_empty_scan_outcomes_witness :
  (exists s',
      handle_paloalto_download Demo.world (Demo.client "a") "PALOALTO" "ZED" initial_state
      = (Ok Empty_content_match, s'))
  /\ handle_latest_blob_download Demo.world (Demo.client "a") "MCE" "zeta" initial_state
     = (Ok Empty_recency, initial_state)
  /\ handle_atna_download Demo.world (Demo.client "a") "ATnA" "GAMMA" initial_state
     = (Ok NoMatchingObject_upload, initial_state)
  /\ handle_f5_checkpoint_download Demo.world (Demo.client "a") "F5" "ZED" initial_state
     = (Ok NoMatchingObject_workbook, initial_state).
Proof.
  pose (listing := fun c => match Demo.listing "" c with Ok l => l | Raise _ => [] end).
  split; [|split; [|split]].
  - destruct (C3_empty_scan_outcomes Demo.world (Demo.client "a") "PALOALTO" "ZED"
                {| containers := [Some "CONTAINER_PALOALTO_1"; Some "CONTAINER_PALOALTO_2"];
                   account_name := Some "AZURE_STORAGE_ACCOUNT_NAME_PALOALTO" |}
                listing initial_state eq_refl) as (Hcontent & _).
    + intros c [<-|[<-|[]]]; reflexivity.
    + destruct (Hcontent Demo.zed_record {| csp_acct_name := Some "zed" |} [] "zed"
                  eq_refl eq_refl eq_refl) as (s' & Hrun & _).
      * intros c b [<-|[<-|[]]] Hb; simpl in Hb;
          repeat (destruct Hb as [<-|Hb]; [reflexivity|]); contradiction.
      * exists s'. exact Hrun.
  - destruct (C3_empty_scan_outcomes Demo.world (Demo.client "a") "MCE" "zeta"
                {| containers := [Some "CONTAINER_MCE"];
                   account_name := Some "AZURE_STORAGE_ACCOUNT_NAME_MCE" |}
                listing initial_state eq_refl) as (_ & Hrecency & _).
    + intros c [<-|[]]; reflexivity.
    + apply Hrecency.
      intros c b [<-|[]] Hb; simpl in Hb;
        repeat (destruct Hb as [<-|Hb]; [reflexivity|]); contradiction.
  - destruct (C3_empty_scan_outcomes Demo.world (Demo.client "a") "ATnA" "GAMMA"
                {| containers := [Some "CONTAINER_ATnA"];
                   account_name := Some "AZURE_STORAGE_ACCOUNT_NAME_ATnA" |}
                listing initial_state eq_refl) as (_ & _ & Hupload & _).
    + intros c [<-|[]]; reflexivity.
    + apply (Hupload
               {| ur_company_id := "GAMMA"; created_on := 50;
                  asset_add_uploads := Some [{| upload_id := Some "nothing-like-it" |}] |}
               {| upload_id := Some "nothing-like-it" |} [] "nothing-like-it"
               eq_refl eq_refl eq_refl).
      intros c b [<-|[]] Hb; simpl in Hb;
        repeat (destruct Hb as [<-|Hb]; [reflexivity|]); contradiction.
  - destruct (C3_empty_scan_outcomes Demo.world (Demo.client "a") "F5" "ZED"
                {| containers := [Some "CONTAINER_F5"];
                   account_name := Some "AZURE_STORAGE_ACCOUNT_NAME_F5" |}
                listing initial_state eq_refl) as (_ & _ & _ & Hworkbook).
    + intros c [<-|[]]; reflexivity.
    + apply (Hworkbook Demo.zed_record eq_refl).
      * discriminate.
      * intros f c [<-|[]] [<-|[]]. reflexivity.
Defined.

(* ------------------------------------------------------------------------- *)
(** * C9: a failure of link issuance, strategy by strategy *)
(* ------------------------------------------------------------------------- *)

(** C9 (evaluation of the code where it departs from the claim): in a world
    where signing a link for [acme-1.csv] is refused, only the recency
    strategy answers with the structured [LinkIssuanceError] (status 500).
    The content-match strategy catches the failure in the [try] block of its
    loop body, logs warnings and answers 200 with the remaining file; in the
    upload-tracking and processed-workbook strategies the exception leaves the
    view uncaught. *)
Theorem C9_issuance_failure_by_strategy :
  download_latest_files Demo.world_refusing (Some "MCE") (Some "acme-1") initial_state
  = (Ok LinkIssuanceError,
     {| ticks := 2; log := [(ERROR, "Failed to generate SAS URL: AuthorizationFailure")] |})
  /\ download_latest_files Demo.world_refusing (Some "PALOALTO") (Some "ACME") initial_state
     = (Ok (jsonify
              (FilesBody "SAS links generated"
                 [{| file := "acme-2.csv";
                     download_url :=
                       "https://AZURE_STORAGE_ACCOUNT_NAME_PALOALTO.blob.core.windows.net/CONTAINER_PALOALTO_2/acme-2.csv?sig-acme-2.csv" |}])
              200),
        {| ticks := 6;
           log := [(WARNING, "Failed to process blob broken.csv: Error tokenizing data");
                   (WARNING, "Failed to process blob acme-1.csv: AuthorizationFailure");
                   (WARNING, "Failed to process blob acme-1.csv: AuthorizationFailure")] |})
  /\ download_latest_files Demo.world_refusing (Some "ATnA") (Some "DELTA") initial_state
     = (Raise (ServiceError "AuthorizationFailure"), {| ticks := 2; log := [] |})
  /\ download_latest_files Demo.world_refusing (Some "F5") (Some "ACME") initial_state
     = (Raise (ServiceError "AuthorizationFailure"), {| ticks := 2; log := [] |}).
Proof.
  repeat split; vm_compute; reflexivity.
Qed.

(* ------------------------------------------------------------------------- *)
(** * Further properties of the code *)
(* ------------------------------------------------------------------------- *)

(** ** The substring test *)

Lemma prefix_app (a b : string) :
  String.prefix a b = true <-> exists post, b = a ++ post.
Proof.
  revert b. induction a as [|x a IH]; intros b.
  - split; [intros _; exists b; reflexivity|]. intros _. destruct b; reflexivity.
  - destruct b as [|y b]; cbn [String.prefix].
    + split; [discriminate|]. intros [post H]. discriminate H.
    + destruct (ascii_dec x y) as [->|Hne].
      * rewrite IH. split; intros [post H]; exists post.
        -- cbn [append]. now rewrite H.
        -- cbn [append] in H. now inversion H.
      * split; [discriminate|]. intros [post H]. cbn [append] in H.
        congruence.
Qed.

(** X1: the test [needle in hay] of lines 136 and 235 holds exactly when
    [hay] is some text, then [needle], then some text. *)
Theorem str_in_substring (needle hay : string) :
  Py.str_in needle hay = true <-> exists pre post, hay = pre ++ needle ++ post.
Proof.
  induction hay as [|y hay IH]; cbn [Py.str_in].
  - rewrite orb_false_r, prefix_app. split.
    + intros [post H]. exists "", post. exact H.
    + intros (pre & post & H). destruct pre as [|x pre]; [|discriminate H].
      exists post. exact H.
  - rewrite orb_true_iff, prefix_app, IH. split.
    + intros [[post H]|(pre & post & H)].
      * exists "", post. exact H.
      * exists (String y pre), post. cbn [append]. now rewrite H.
    + intros (pre & post & H). destruct pre as [|x pre].
      * left. exists post. exact H.
      * right. cbn [append] in H. inversion H. exists pre, post. reflexivity.
Qed.

Lemma str_in_empty (hay : string) : Py.str_in "" hay = true.
Proof. destruct hay; reflexivity. Qed.

(** ** An invariant rule for [for] loops *)

(** If every iteration that does not raise keeps [P] on the locals (or
    establishes [Q] on the value it returns), a loop that does not raise ends
    with [P] on its locals or [Q] on the value returned. *)
Lemma for_in_invariant {A S R : Type} (P : S -> State -> Prop) (Q : R -> State -> Prop)
    (body : A -> S -> M (Step S R)) (xs : list A) :
  (forall x acc s st s', In x xs -> P acc s -> body x acc s = (Ok st, s') ->
     match st with
     | Next acc' | Break acc' => P acc' s'
     | Return r => Q r s'
     end) ->
  forall acc s res s',
    P acc s -> for_in xs acc body s = (Ok res, s') ->
    match res with
    | inl acc' => P acc' s'
    | inr r => Q r s'
    end.
Proof.
  induction xs as [|x xs IH]; intros Hbody acc s res s' HP Hrun.
  - cbn [for_in] in Hrun. unfold ret in Hrun. inversion Hrun; subst. exact HP.
  - cbn [for_in] in Hrun. unfold bind in Hrun.
    destruct (body x acc s) as [[st|e] s1] eqn:Hstep; [|discriminate].
    pose proof (Hbody x acc s st s1 (or_introl eq_refl) HP Hstep) as Hst.
    destruct st as [acc1|acc1|r].
    + apply (IH (fun x0 a0 s0 st0 s0' Hin => Hbody x0 a0 s0 st0 s0' (or_intror Hin))
               acc1 s1 res s' Hst Hrun).
    + unfold ret in Hrun. inversion Hrun; subst. exact Hst.
    + unfold ret in Hrun. inversion Hrun; subst. exact Hst.
Qed.

(** Inversion of the monadic operations. *)
Lemma bind_inv {A B : Type} (m : M A) (k : A -> M B) s b s' :
  bind m k s = (Ok b, s') -> exists a s1, m s = (Ok a, s1) /\ k a s1 = (Ok b, s').
Proof.
  unfold bind. destruct (m s) as [[a|e] s1]; [|discriminate].
  intros H. now exists a, s1.
Qed.

Lemma ret_inv {A : Type} (a b : A) s s' : ret a s = (Ok b, s') -> a = b /\ s = s'.
Proof. unfold ret. intros H. inversion H. now split. Qed.

Lemma list_blobs_inv w client c prefix s blobs s' :
  list_blobs w client c prefix s = (Ok blobs, s') ->
  s' = s /\ exists all,
    container_blobs w (account_url client) c = Ok all
    /\ blobs = match prefix with
               | None => all
               | Some p => filter (fun b => String.prefix p (name b)) all
               end.
Proof.
  unfold list_blobs, bind, call, ret.
  destruct (container_blobs w (account_url client) c) as [all|e]; [|discriminate].
  intros H. inversion H; subst. split; [reflexivity|]. now exists all.
Qed.

Lemma generate_sas_url_inv w client account c blob ttl s url s' :
  generate_sas_url w client account c blob ttl s = (Ok url, s') ->
  exists token,
    url = "https://" ++ Py.format account ++ ".blob.core.windows.net/"
            ++ Py.format c ++ "/" ++ blob ++ "?" ++ token.
Proof.
  rewrite generate_sas_url_run.
  destruct (user_delegation_key w _ _ _); [|discriminate].
  destruct (generate_blob_sas w _) as [token|]; [|discriminate].
  intros H. inversion H. now exists token.
Qed.

(** ** The responses of the handlers *)

Lemma handler_response_status r :
  handler_response r = true ->
  status r = 200%Z \/ status r = 404%Z \/ status r = 500%Z.
Proof.
  unfold handler_response.
  destruct (body r) as [e|m|m u|m [|f files]]; try discriminate;
    rewrite ?orb_true_iff, ?Z.eqb_eq; tauto.
Qed.

Section HandlerShapes.

Variable w : World.
Variable client : BlobServiceClient.
Variable account : option string.

Lemma atna_scan_blobs_shape c uid blobs s res s' :
  atna_scan_blobs w client account c uid blobs s = (Ok res, s') ->
  match res with
  | inl _ => True
  | inr r => handler_response r = true
  end.
Proof.
  unfold atna_scan_blobs.
  apply (for_in_invariant (fun _ _ => True) (fun r _ => handler_response r = true));
    [|exact I].
  intros b acc s0 st s1 _ _ Hbody.
  destruct (Py.str_in uid (name b)).
  - apply bind_inv in Hbody. destruct Hbody as (url & s2 & _ & Hret).
    apply ret_inv in Hret. destruct Hret as [<- _]. reflexivity.
  - apply ret_inv in Hbody. destruct Hbody as [<- _]. exact I.
Qed.

Lemma atna_scan_shape cs uid s r s' :
  atna_scan w client account cs uid s = (Ok r, s') -> handler_response r = true.
Proof.
  unfold atna_scan. intros H. apply bind_inv in H. destruct H as (res & s1 & Hloop & Hend).
  assert (Hres : match res with inl _ => True | inr r0 => handler_response r0 = true end).
  { revert Hloop. unfold atna_scan_containers.
    apply (for_in_invariant (fun _ _ => True) (fun r0 _ => handler_response r0 = true));
      [|exact I].
    intros c acc s0 st s2 _ _ Hbody.
    apply bind_inv in Hbody. destruct Hbody as (blobs & s3 & _ & Hbody).
    apply bind_inv in Hbody. destruct Hbody as (r0 & s4 & Hblobs & Hret).
    apply ret_inv in Hret. destruct Hret as [<- _].
    apply atna_scan_blobs_shape in Hblobs. destruct r0; exact Hblobs. }
  destruct res as [u|r0]; apply ret_inv in Hend; destruct Hend as [<- _];
    [reflexivity | exact Hres].
Qed.

(** The workbook scan never returns from inside its loops, and every link it
    collects is a link for the file it is paired with, which is one of the
    names looked for, in one of the containers scanned. *)
Lemma f5_checkpoint_scan_links cs files s res s' :
  f5_checkpoint_scan w client account cs files s = (Ok res, s') ->
  exists links,
    res = inl links
    /\ Forall (fun fl => link_for account cs fl /\ In (file fl) files) links.
Proof.
  intros Hrun.
  pose (P := fun (acc : list FileLink) (_ : State) =>
               Forall (fun fl => link_for account cs fl /\ In (file fl) files) acc).
  assert (Hinv : match res with inl acc => P acc s' | inr _ => False end).
  { revert Hrun. unfold f5_checkpoint_scan.
    apply (for_in_invariant P (fun (_ : Response) _ => False)); [|constructor].
    intros f acc s0 st s1 Hf HP Hbody.
    apply bind_inv in Hbody. destruct Hbody as (r1 & s2 & Hcont & Hret).
    apply ret_inv in Hret. destruct Hret as [<- <-].
    assert (H1 : match r1 with inl a => P a s2 | inr _ => False end).
    { revert Hcont. unfold f5_checkpoint_scan_containers.
      apply (for_in_invariant P (fun (_ : Response) _ => False)); [|exact HP].
      intros c acc1 s3 st1 s4 Hc HP1 Hbody.
      apply bind_inv in Hbody. destruct Hbody as (blob_list & s5 & _ & Hbody).
      apply bind_inv in Hbody. destruct Hbody as (r2 & s6 & Hblobs & Hret).
      apply ret_inv in Hret. destruct Hret as [<- <-].
      assert (H2 : match r2 with inl a => P a s6 | inr _ => False end).
      { revert Hblobs. unfold f5_checkpoint_scan_blobs.
        apply (for_in_invariant P (fun (_ : Response) _ => False)); [|exact HP1].
        intros b acc2 s7 st2 s8 _ HP2 Hbody.
        destruct (name b =? f).
        - apply bind_inv in Hbody. destruct Hbody as (url & s9 & Hgen & Hret).
          apply ret_inv in Hret. destruct Hret as [<- _].
          apply generate_sas_url_inv in Hgen. destruct Hgen as [token Hurl].
          unfold P. apply Forall_app. split; [exact HP2|].
          constructor; [|constructor]. split; [|exact Hf].
          exists c, token. split; [exact Hc | exact Hurl].
        - apply ret_inv in Hbody. destruct Hbody as [<- _]. exact HP2. }
      destruct r2; exact H2. }
    destruct r1; exact H1. }
  destruct res as [links|r]; [|contradiction]. now exists links.
Qed.

(** The content-match scan never returns from inside its loops either, and
    every link it collects is a link for the file it is paired with. *)
Lemma paloalto_scan_links cs csp s res s' :
  paloalto_scan w client account cs csp s = (Ok res, s') ->
  exists links, res = inl links /\ Forall (link_for account cs) links.
Proof.
  intros Hrun.
  pose (P := fun (acc : list FileLink) (_ : State) => Forall (link_for account cs) acc).
  assert (Hinv : match res with inl acc => P acc s' | inr _ => False end).
  { revert Hrun. unfold paloalto_scan.
    apply (for_in_invariant P (fun (_ : Response) _ => False)); [|constructor].
    intros c acc s0 st s1 Hc HP Hbody.
    apply bind_inv in Hbody. destruct Hbody as (blobs & s2 & _ & Hbody).
    apply bind_inv in Hbody. destruct Hbody as (r1 & s3 & Hblobs & Hret).
    apply ret_inv in Hret. destruct Hret as [<- <-].
    assert (H1 : match r1 with inl a => P a s3 | inr _ => False end).
    { revert Hblobs. unfold paloalto_scan_blobs.
      apply (for_in_invariant P (fun (_ : Response) _ => False)); [|exact HP].
      intros b acc1 s4 st1 s5 _ HP1 Hbody.
      apply bind_inv in Hbody. destruct Hbody as (acc2 & s6 & Hstep & Hret).
      apply ret_inv in Hret. destruct Hret as [<- _].
      rewrite paloalto_process_blob_run in Hstep.
      destruct (blob_content w (account_url client) c (name b)) as [data|e];
        [|inversion Hstep; subst; exact HP1].
      destruct (read_csv w data) as [df|e]; [|inversion Hstep; subst; exact HP1].
      destruct (column_has df csp) as [[|]|]; try (inversion Hstep; subst; exact HP1).
      destruct (generate_sas_url w client account c (name b) default_expiry_minutes s4)
        as [[url|e] s7] eqn:Hgen; inversion Hstep; subst; [|exact HP1].
      apply generate_sas_url_inv in Hgen. destruct Hgen as [token Hurl].
      unfold P. apply Forall_app. split; [exact HP1|].
      constructor; [|constructor]. exists c, token. split; [exact Hc | exact Hurl]. }
    destruct r1; exact H1. }
  destruct res as [links|r]; [|contradiction]. now exists links.
Qed.

Lemma latest_scan_no_return cs company_id s res s' :
  latest_scan w client cs company_id s = (Ok res, s') -> exists latest, res = inl latest.
Proof.
  intros Hrun.
  assert (Hinv : match res with inl _ => True | inr _ => False end).
  { revert Hrun. unfold latest_scan.
    apply (for_in_invariant (fun _ _ => True) (fun (_ : Response) _ => False)); [|exact I].
    intros c acc s0 st s1 _ _ Hbody.
    apply bind_inv in Hbody. destruct Hbody as (blobs & s2 & _ & Hret).
    apply ret_inv in Hret. destruct Hret as [<- _]. exact I. }
  destruct res as [latest|r]; [|contradiction]. now exists latest.
Qed.

End HandlerShapes.

Lemma mapping_item_inv w app_name s info s' :
  mapping_item w app_name s = (Ok info, s') ->
  Py.dict_get (app_container_mapping w) app_name = Some info /\ s' = s.
Proof.
  unfold mapping_item.
  destruct (Py.dict_get (app_container_mapping w) app_name) as [i|]; [|discriminate].
  intros H. apply ret_inv in H. destruct H as [-> ->]. now split.
Qed.

Lemma handle_atna_download_shape w client app_name company_id s r s' :
  handle_atna_download w client app_name company_id s = (Ok r, s') ->
  handler_response r = true.
Proof.
  unfold handle_atna_download.
  destruct (find_one_sorted_desc _ _ _) as [record|];
    [|intros H; apply ret_inv in H; destruct H as [<- _]; reflexivity].
  destruct (asset_add_uploads record) as [[|first others]|];
    try (intros H; apply ret_inv in H; destruct H as [<- _]; reflexivity).
  intros H. apply bind_inv in H. destruct H as (uid & s1 & _ & H).
  apply bind_inv in H. destruct H as (info & s2 & _ & H).
  now apply atna_scan_shape in H.
Qed.

Lemma handle_f5_checkpoint_download_shape w client app_name company_id s r s' :
  handle_f5_checkpoint_download w client app_name company_id s = (Ok r, s') ->
  handler_response r = true.
Proof.
  unfold handle_f5_checkpoint_download.
  destruct (find_one _ _) as [record|];
    [|intros H; apply ret_inv in H; destruct H as [<- _]; reflexivity].
  cbv zeta.
  destruct (keep_truthy (workbook_fields app_name record)) as [|f files];
    [intros H; apply ret_inv in H; destruct H as [<- _]; reflexivity|].
  intros H. apply bind_inv in H. destruct H as (info & s1 & _ & H).
  apply bind_inv in H. destruct H as (res & s2 & Hscan & H).
  apply f5_checkpoint_scan_links in Hscan. destruct Hscan as (links & -> & _).
  destruct links; apply ret_inv in H; destruct H as [<- _]; reflexivity.
Qed.

Lemma handle_paloalto_download_shape w client app_name company_id s r s' :
  handle_paloalto_download w client app_name company_id s = (Ok r, s') ->
  handler_response r = true.
Proof.
  unfold handle_paloalto_download.
  destruct (find_one _ _) as [record|];
    [|intros H; apply ret_inv in H; destruct H as [<- _]; reflexivity].
  cbv zeta.
  destruct (match connection_details record with Some l => l | None => [] end)
    as [|first others];
    [intros H; apply ret_inv in H; destruct H as [<- _]; reflexivity|].
  destruct (Py.truthy (csp_acct_name first)) as [acct|];
    [|intros H; apply ret_inv in H; destruct H as [<- _]; reflexivity].
  intros H. apply bind_inv in H. destruct H as (info & s1 & _ & H).
  apply bind_inv in H. destruct H as (res & s2 & Hscan & H).
  apply paloalto_scan_links in Hscan. destruct Hscan as (links & -> & _).
  destruct links; apply ret_inv in H; destruct H as [<- _]; reflexivity.
Qed.

Lemma recency_answer_run w client account c b s :
  recency_answer w client account c b s =
    match generate_sas_url w client account c (name b) default_expiry_minutes s with
    | (Ok url, s') =>
        (Ok (jsonify (LinkBody ("Download link for " ++ name b ++ " generated") url) 200), s')
    | (Raise e, s') =>
        (Ok LinkIssuanceError,
         {| ticks := ticks s';
            log := (log s' ++ [(ERROR, ("Failed to generate SAS URL: " ++ exn_str e)%string)])%list |})
    end.
Proof.
  unfold recency_answer, try_except, bind.
  destruct (generate_sas_url w client account c (name b) default_expiry_minutes s)
    as [[url|e] s']; reflexivity.
Qed.

Lemma handle_latest_blob_download_shape w client app_name company_id s r s' :
  handle_latest_blob_download w client app_name company_id s = (Ok r, s') ->
  handler_response r = true.
Proof.
  unfold handle_latest_blob_download.
  intros H. apply bind_inv in H. destruct H as (info & s1 & _ & H).
  apply bind_inv in H. destruct H as (res & s2 & Hscan & H).
  apply latest_scan_no_return in Hscan. destruct Hscan as (latest & ->).
  destruct latest as [[b c]|];
    [|apply ret_inv in H; destruct H as [<- _]; reflexivity].
  change (recency_answer w client (account_name info) c b s2 = (Ok r, s')) in H.
  rewrite recency_answer_run in H.
  destruct (generate_sas_url w client (account_name info) c (name b)
              default_expiry_minutes s2) as [[url|e] s3];
    inversion H; reflexivity.
Qed.

(** ** The view: what it answers, and to whom it hands over *)

Lemma dict_has_get {V : Type} (d : list (string * V)) k :
  Py.dict_has d k = true <-> exists v, Py.dict_get d k = Some v.
Proof.
  unfold Py.dict_has. destruct (Py.dict_get d k) as [v|]; split.
  - intros _. now exists v.
  - reflexivity.
  - discriminate.
  - intros [v H]. discriminate H.
Qed.

(** The three ways in which the view ends with a response. *)
Lemma view_cases w app_name company_id s r s' :
  download_latest_files w app_name company_id s = (Ok r, s') ->
  ((Py.truthy app_name = None \/ Py.truthy company_id = None)
   /\ r = InvalidRequest /\ s' = s)
  \/ (exists a c, Py.truthy app_name = Some a /\ Py.truthy company_id = Some c
                  /\ Py.dict_has (app_container_mapping w) a = false
                  /\ r = UnknownApplication /\ s' = s)
  \/ (exists a c, Py.truthy app_name = Some a /\ Py.truthy company_id = Some c
                  /\ Py.dict_has (app_container_mapping w) a = true
                  /\ handler_response r = true).
Proof.
  unfold download_latest_files.
  destruct (Py.truthy app_name) as [a|].
  2:{ intros H. destruct (Py.truthy company_id); apply ret_inv in H;
        destruct H as [<- <-]; left; (split; [now left | split; reflexivity]). }
  destruct (Py.truthy company_id) as [c|].
  2:{ intros H. apply ret_inv in H. destruct H as [<- <-].
      left. split; [now right | split; reflexivity]. }
  destruct (Py.dict_has (app_container_mapping w) a) eqn:Hhas; cbn [negb].
  2:{ intros H. apply ret_inv in H. destruct H as [<- <-].
      right. left. exists a, c.
      split; [reflexivity|]. split; [reflexivity|]. split; [exact Hhas|].
      split; reflexivity. }
  intros H. right. right. exists a, c.
  split; [reflexivity|]. split; [reflexivity|]. split; [exact Hhas|].
  apply bind_inv in H. destruct H as (cl & s1 & _ & H).
  destruct (a =? "ATnA"); [now apply handle_atna_download_shape in H|].
  destruct ((a =? "F5") || (a =? "CHECKPOINT"));
    [now apply handle_f5_checkpoint_download_shape in H|].
  destruct (a =? "PALOALTO"); [now apply handle_paloalto_download_shape in H|].
  now apply handle_latest_blob_download_shape in H.
Qed.

(** X2: every response of the view has one of the shapes of the source: a
    body with an ['error'] key goes with the status 400, 404 or 500; any
    other body goes with 200; a ['files'] list is never empty. *)
Theorem view_response_shape (w : World) (app_name company_id : option string)
    (s s' : State) (r : Response) :
  download_latest_files w app_name company_id s = (Ok r, s') ->
  view_response r = true
  /\ (status r = 200 \/ status r = 400 \/ status r = 404 \/ status r = 500)%Z.
Proof.
  intros H. apply view_cases in H.
  destruct H as [(_ & -> & _)|[(a & c & _ & _ & _ & -> & _)|(a & c & _ & _ & _ & Hr)]].
  - split; [reflexivity|]. right. left. reflexivity.
  - split; [reflexivity|]. right. left. reflexivity.
  - split; [unfold view_response; now rewrite Hr|].
    apply handler_response_status in Hr. tauto.
Qed.

Lemma view_response_shape_witness :
  view_response (jsonify (ErrorBody "No matching blobs found in containers") 404) = true
  /\ (status (jsonify (ErrorBody "No matching blobs found in containers") 404) = 200
      \/ status (jsonify (ErrorBody "No matching blobs found in containers") 404) = 400
      \/ status (jsonify (ErrorBody "No matching blobs found in containers") 404) = 404
      \/ status (jsonify (ErrorBody "No matching blobs found in containers") 404) = 500)%Z.
Proof.
  apply (view_response_shape Demo.world (Some "CHECKPOINT") (Some "ACME")
           initial_state initial_state).
  reflexivity.
Defined.

(** X3: the view answers with the status 400 exactly when an input is missing
    or empty, or the application is not a key of the mapping; it has then
    called no collaborator: the clock and the log are as they were. *)
Theorem view_status_400 (w : World) (app_name company_id : option string)
    (s s' : State) (r : Response) :
  download_latest_files w app_name company_id s = (Ok r, s') ->
  (status r = 400%Z <->
     Py.truthy app_name = None \/ Py.truthy company_id = None
     \/ exists a, Py.truthy app_name = Some a
                  /\ Py.dict_has (app_container_mapping w) a = false)
  /\ (status r = 400%Z -> s' = s).
Proof.
  intros H. apply view_cases in H.
  destruct H as [(Hin & -> & ->)|[(a & c & Ha & Hc & Hhas & -> & ->)
                                 |(a & c & Ha & Hc & Hhas & Hr)]].
  - split; [|reflexivity]. split; [intros _; tauto | reflexivity].
  - split; [|reflexivity]. split; [|reflexivity].
    intros _. right. right. now exists a.
  - apply handler_response_status in Hr.
    split; [|intros H4; rewrite H4 in Hr; destruct Hr as [Hr|[Hr|Hr]]; discriminate Hr].
    split.
    + intros H4. rewrite H4 in Hr. destruct Hr as [Hr|[Hr|Hr]]; discriminate Hr.
    + intros [Hn|[Hn|(a' & Ha' & Hn)]]; congruence.
Qed.

Lemma view_status_400_witness :
  (status UnknownApplication = 400%Z <->
     Py.truthy (Some "NOPE") = None \/ Py.truthy (Some "ACME") = None
     \/ exists a, Py.truthy (Some "NOPE") = Some a
                  /\ Py.dict_has (app_container_mapping Demo.world) a = false)
  /\ (status UnknownApplication = 400%Z -> initial_state = initial_state).
Proof.
  apply (view_status_400 Demo.world (Some "NOPE") (Some "ACME") initial_state initial_state).
  reflexivity.
Defined.

(** X4: the dispatch table.  For a configured application and a non-empty
    company identifier the view is the handler of that application, run with
    a client for the account of its profile: [ATnA] goes to the
    upload-tracking handler, [F5] and [CHECKPOINT] to the processed-workbook
    handler, [PALOALTO] to the content-match handler, and the four other keys
    to the recency handler. *)
Theorem view_dispatch (w : World) (app_name company_id : string) (info : Profile)
    (s : State) :
  Py.dict_get (app_container_mapping w) app_name = Some info ->
  company_id <> "" ->
  (app_name = "ATnA" ->
   download_latest_files w (Some app_name) (Some company_id) s
   = handle_atna_download w (client_of info) app_name company_id s)
  /\ (app_name = "F5" \/ app_name = "CHECKPOINT" ->
      download_latest_files w (Some app_name) (Some company_id) s
      = handle_f5_checkpoint_download w (client_of info) app_name company_id s)
  /\ (app_name = "PALOALTO" ->
      download_latest_files w (Some app_name) (Some company_id) s
      = handle_paloalto_download w (client_of info) app_name company_id s)
  /\ (In app_name ["EAROI"; "MCE"; "CISCOIBR"; "BYOW"] ->
      download_latest_files w (Some app_name) (Some company_id) s
      = handle_latest_blob_download w (client_of info) app_name company_id s).
Proof.
  intros Hinfo Hc.
  assert (Hrun : forall a, a <> "" ->
            Py.dict_get (app_container_mapping w) a = Some info ->
            download_latest_files w (Some a) (Some company_id) s =
            (if a =? "ATnA" then handle_atna_download w (client_of info) a company_id
             else if (a =? "F5") || (a =? "CHECKPOINT")
                  then handle_f5_checkpoint_download w (client_of info) a company_id
             else if a =? "PALOALTO"
                  then handle_paloalto_download w (client_of info) a company_id
             else handle_latest_blob_download w (client_of info) a company_id) s).
  { intros a Ha Hget. unfold download_latest_files, Py.truthy.
    destruct (String.eqb_spec a ""); [contradiction|].
    destruct (String.eqb_spec company_id ""); [contradiction|].
    replace (Py.dict_has (app_container_mapping w) a) with true
      by (symmetry; apply dict_has_get; now exists info).
    cbn [negb]. unfold get_blob_service_client, mapping_item. rewrite Hget.
    reflexivity. }
  repeat split.
  - intros ->. now rewrite Hrun.
  - intros [-> | ->]; now rewrite Hrun.
  - intros ->. now rewrite Hrun.
  - intros Hin. cbn [In] in Hin.
    destruct Hin as [<-|[<-|[<-|[<-|[]]]]]; now rewrite Hrun.
Qed.

Lemma view_dispatch_witness :
  download_latest_files Demo.world (Some "MCE") (Some "acme") initial_state
  = handle_latest_blob_download Demo.world
      (client_of {| containers := [Some "CONTAINER_MCE"];
                    account_name := Some "AZURE_STORAGE_ACCOUNT_NAME_MCE" |})
      "MCE" "acme" initial_state.
Proof.
  refine (proj2 (proj2 (proj2
            (view_dispatch Demo.world "MCE" "acme"
               {| containers := [Some "CONTAINER_MCE"];
                  account_name := Some "AZURE_STORAGE_ACCOUNT_NAME_MCE" |}
               initial_state eq_refl _))) _).
  - discriminate.
  - right. left. reflexivity.
Defined.

(** ** Records that are missing or incomplete *)

Lemma find_none_all {D : Type} (f : D -> bool) (l : list D) :
  (forall d, In d l -> f d = false) -> find f l = None.
Proof.
  induction l as [|d l IH]; intros H; [reflexivity|].
  cbn [find]. rewrite (H d (or_introl eq_refl)). apply IH.
  intros d' Hd'. apply H. now right.
Qed.

(** X5: when the generic collection holds no record of the company, the
    processed-workbook and the content-match handlers both answer 404 with a
    message that names the company identifier, and touch nothing else. *)
Theorem no_client_record (w : World) (client : BlobServiceClient)
    (app_name company_id : string) (s : State) :
  (forall r, In r (generic_collection w) -> gr_company_id r <> company_id) ->
  handle_f5_checkpoint_download w client app_name company_id s
  = (Ok (jsonify (ErrorBody ("No record found for company_id: " ++ company_id)) 404), s)
  /\ handle_paloalto_download w client app_name company_id s
     = (Ok (jsonify (ErrorBody ("No record found for company_id: " ++ company_id)) 404), s).
Proof.
  intros Hnone.
  assert (Hfind : find_one (fun r => gr_company_id r =? company_id) (generic_collection w)
                  = None).
  { apply find_none_all. intros r Hr. apply String.eqb_neq. now apply Hnone. }
  unfold handle_f5_checkpoint_download, handle_paloalto_download. rewrite Hfind.
  split; reflexivity.
Qed.

Lemma no_client_record_witness :
  handle_f5_checkpoint_download Demo.world (Demo.client "a") "F5" "NOBODY" initial_state
  = (Ok (jsonify (ErrorBody "No record found for company_id: NOBODY") 404), initial_state)
  /\ handle_paloalto_download Demo.world (Demo.client "a") "PALOALTO" "NOBODY" initial_state
     = (Ok (jsonify (ErrorBody "No record found for company_id: NOBODY") 404),
        initial_state).
Proof.
  split.
  - apply (no_client_record Demo.world (Demo.client "a") "F5" "NOBODY" initial_state).
    intros r [<-|[<-|[]]]; discriminate.
  - apply (no_client_record Demo.world (Demo.client "a") "PALOALTO" "NOBODY" initial_state).
    intros r [<-|[<-|[]]]; discriminate.
Defined.

(** X6: when the record has none of the workbook fields of the application,
    or only empty ones, the processed-workbook handler answers 404 'No
    workbook filenames found in MongoDB record' without looking at the
    storage; that is always so for an application other than F5 and
    CHECKPOINT. *)
Theorem no_filenames_configured (w : World) (client : BlobServiceClient)
    (app_name company_id : string) (record : GenericRecord) (s : State) :
  find_one (fun r => gr_company_id r =? company_id) (generic_collection w) = Some record ->
  ((forall f, In (Some f) (workbook_fields app_name record) -> f = "") ->
   handle_f5_checkpoint_download w client app_name company_id s
   = (Ok NoFilenamesConfigured, s))
  /\ (app_name <> "F5" -> app_name <> "CHECKPOINT" ->
      handle_f5_checkpoint_download w client app_name company_id s
      = (Ok NoFilenamesConfigured, s)).
Proof.
  intros Hrec.
  assert (Hempty : (forall f, In (Some f) (workbook_fields app_name record) -> f = "") ->
                   handle_f5_checkpoint_download w client app_name company_id s
                   = (Ok NoFilenamesConfigured, s)).
  { intros Hall. unfold handle_f5_checkpoint_download. rewrite Hrec. cbv zeta.
    destruct (keep_truthy (workbook_fields app_name record)) as [|f files] eqn:Hk;
      [reflexivity|].
    exfalso. assert (Hin : In f (keep_truthy (workbook_fields app_name record)))
      by (rewrite Hk; now left).
    apply keep_truthy_spec in Hin. destruct Hin as [Hin Hne]. now apply Hne, Hall. }
  split; [exact Hempty|].
  intros H1 H2. apply Hempty. rewrite (workbook_fields_other app_name record H1 H2).
  intros f [].
Qed.

Lemma no_filenames_configured_witness :
  handle_f5_checkpoint_download Demo.world (Demo.client "a") "CHECKPOINT" "ZED" initial_state
  = (Ok NoFilenamesConfigured, initial_state)
  /\ handle_f5_checkpoint_download Demo.world (Demo.client "a") "PALOALTO" "ZED" initial_state
     = (Ok NoFilenamesConfigured, initial_state).
Proof.
  split.
  - apply (proj1 (no_filenames_configured Demo.world (Demo.client "a") "CHECKPOINT" "ZED"
                    Demo.zed_record initial_state eq_refl)).
    intros f [H|[H|[]]]; discriminate H.
  - apply (proj2 (no_filenames_configured Demo.world (Demo.client "a") "PALOALTO" "ZED"
                    Demo.zed_record initial_state eq_refl)); discriminate.
Defined.

(** X7: when the record has no [connection_details], an empty list of them,
    or a first entry without a non-empty [csp_acct_name], the content-match
    handler answers 404 'No csp_acct_name found' without looking at the
    storage; the later entries of the list are never consulted. *)
Theorem no_account_name_configured (w : World) (client : BlobServiceClient)
    (app_name company_id : string) (record : GenericRecord) (s : State) :
  find_one (fun r => gr_company_id r =? company_id) (generic_collection w) = Some record ->
  connection_details record = None
  \/ connection_details record = Some []
  \/ (exists first others,
        connection_details record = Some (first :: others)
        /\ (csp_acct_name first = None \/ csp_acct_name first = Some "")) ->
  handle_paloalto_download w client app_name company_id s
  = (Ok (jsonify (ErrorBody "No csp_acct_name found") 404), s).
Proof.
  intros Hrec Hcd. unfold handle_paloalto_download. rewrite Hrec.
  destruct Hcd as [Hcd|[Hcd|(first & others & Hcd & Hname)]]; rewrite Hcd;
    try reflexivity.
  destruct Hname as [Hname|Hname]; rewrite Hname; reflexivity.
Qed.

Lemma no_account_name_configured_witness :
  let record := {| gr_company_id := "ACME";
                   license_asset_summary_workbook_processed := None;
                   pricing_retired_workbook_processed := None;
                   pricing_active_workbook_processed := None;
                   orders_workbook_processed := None;
                   product_list_workbook_processed := None;
                   connection_details := Some [{| csp_acct_name := Some "" |};
                                               {| csp_acct_name := Some "acme" |}] |} in
  let w := {| getenv := Demo.env; utcnow_reading := Demo.clock;
              container_blobs := Demo.listing; blob_content := Demo.content;
              read_csv := Demo.parse; user_delegation_key := Demo.key;
              generate_blob_sas := Demo.sign; upload_collection := [];
              generic_collection := [record] |} in
  handle_paloalto_download w (Demo.client "a") "PALOALTO" "ACME" initial_state
  = (Ok (jsonify (ErrorBody "No csp_acct_name found") 404), initial_state).
Proof.
  intros record w.
  apply (no_account_name_configured w (Demo.client "a") "PALOALTO" "ACME" record
           initial_state eq_refl).
  right. right. exists {| csp_acct_name := Some "" |}, [{| csp_acct_name := Some "acme" |}].
  split; [reflexivity | now right].
Defined.

(** ** The scans over several containers *)

Lemma every_match_names listing cs files :
  map snd (every_match_targets listing cs files) =
  flat_map (fun f => repeat f (List.length (filter (fun c => has_exact (listing c) f) cs))) files.
Proof.
  unfold every_match_targets. induction files as [|f files IH]; [reflexivity|].
  cbn [flat_map]. rewrite map_app, IH. f_equal.
  induction (filter (fun c => has_exact (listing c) f) cs) as [|c l IHl]; [reflexivity|].
  cbn [map List.length repeat snd]. now rewrite IHl.
Qed.

(** X8: over any list of containers that can be listed, the workbook scan
    issues, filename by filename, one link for each container whose listing
    holds an object of exactly that name (several objects of that name in one
    listing give one link): the [break] of line 180 ends the loop over the
    blobs of a container, not the loop over the containers. *)
Theorem workbook_scan_one_link_per_holding_container
    (w : World) (client : BlobServiceClient) (account : option string)
    (cs : list (option string)) (files : list string)
    (listing : option string -> list BlobProperties) (s : State) :
  listed w client cs listing ->
  f5_checkpoint_scan w client account cs files s
  = as_locals (issue_links w client account (every_match_targets listing cs files) [] s)
  /\ (forall links s',
        f5_checkpoint_scan w client account cs files s = (Ok (inl links), s') ->
        map file links
        = flat_map (fun f => repeat f (List.length (filter (fun c => has_exact (listing c) f) cs)))
            files).
Proof.
  intros Hl.
  assert (Hrun : f5_checkpoint_scan w client account cs files s
                 = as_locals (issue_links w client account
                                (every_match_targets listing cs files) [] s)).
  { unfold f5_checkpoint_scan. now apply f5_checkpoint_scan_run. }
  split; [exact Hrun|].
  intros links s' H. rewrite Hrun in H.
  destruct (issue_links w client account (every_match_targets listing cs files) [] s)
    as [[links0|e] s0] eqn:Hissue; [|discriminate].
  cbn [as_locals] in H. inversion H; subst links0 s0.
  apply issue_links_files in Hissue. cbn [map app] in Hissue.
  rewrite Hissue. apply every_match_names.
Qed.

Lemma workbook_scan_one_link_per_holding_container_witness :
  let cs := [Some "CONTAINER_PALOALTO_1"; Some "CONTAINER_PALOALTO_2"] in
  let listing := fun c => match Demo.listing "" c with Ok l => l | Raise _ => [] end in
  let files := ["acme-1.csv"; "acme-2.csv"] in
  let run := f5_checkpoint_scan Demo.world (Demo.client "a") (Some "a") cs files
               initial_state in
  run = as_locals (issue_links Demo.world (Demo.client "a") (Some "a")
                     (every_match_targets listing cs files) [] initial_state)
  /\ map file (match fst run with Ok (inl links) => links | _ => [] end)
     = ["acme-1.csv"; "acme-1.csv"; "acme-2.csv"].
Proof.
  intros cs listing files run.
  destruct (workbook_scan_one_link_per_holding_container Demo.world (Demo.client "a")
              (Some "a") cs files listing initial_state) as [Hrun Hfiles].
  - intros c [<-|[<-|[]]]; reflexivity.
  - split; [exact Hrun|].
    apply (Hfiles (match fst run with Ok (inl links) => links | _ => [] end) (snd run)).
    vm_compute. reflexivity.
Defined.

(** X9: an upload identifier that is the empty string is contained in every
    name: the upload-tracking scan then answers with the first object of the
    first container that is not empty. *)
Theorem upload_tracking_empty_identifier
    (w : World) (client : BlobServiceClient) (account : option string)
    (pre post : list (option string)) (c : option string)
    (b : BlobProperties) (rest : list BlobProperties)
    (listing : option string -> list BlobProperties) (s : State) :
  listed w client (pre ++ c :: post)%list listing ->
  (forall c', In c' pre -> listing c' = []) ->
  listing c = b :: rest ->
  atna_scan w client account (pre ++ c :: post)%list "" s = atna_answer w client account c b s.
Proof.
  intros Hl Hpre Hc. unfold atna_scan, bind.
  rewrite (atna_scan_containers_first w client account "" pre c post listing [] b rest s
             Hl).
  - destruct (atna_answer w client account c b s) as [[response|e] s']; reflexivity.
  - intros c' b' Hc' Hb'. rewrite (Hpre c' Hc') in Hb'. contradiction.
  - exact Hc.
  - intros b' [].
  - apply str_in_empty.
Qed.

Lemma upload_tracking_empty_identifier_witness :
  atna_scan Demo.world (Demo.client "a") (Some "a")
    [Some "CONTAINER_PALOALTO_1"; Some "CONTAINER_PALOALTO_2"] "" initial_state
  = atna_answer Demo.world (Demo.client "a") (Some "a") (Some "CONTAINER_PALOALTO_1")
      (Demo.blob "broken.csv" 5) initial_state.
Proof.
  apply (upload_tracking_empty_identifier Demo.world (Demo.client "a") (Some "a")
           [] [Some "CONTAINER_PALOALTO_2"] (Some "CONTAINER_PALOALTO_1")
           (Demo.blob "broken.csv" 5)
           [Demo.blob "other.csv" 40; Demo.blob "acme-1.csv" 30]
           (fun c => match Demo.listing "" c with Ok l => l | Raise _ => [] end)
           initial_state).
  - intros c [<-|[<-|[]]]; reflexivity.
  - intros c' [].
  - reflexivity.
Defined.

(** ** Handlers that do not raise *)



(** X11: when the record names an account and the containers of the profile
    can be listed, the content-match handler always ends with a response of
    status 200, whatever the downloads, the parser and the link issuer do:
    either 'No matching data found' or a non-empty list of files. *)
Theorem content_match_handler_always_200
    (w : World) (client : BlobServiceClient) (app_name company_id : string)
    (info : Profile) (record : GenericRecord) (first : ConnectionDetail)
    (others : list ConnectionDetail) (acct : string)
    (listing : option string -> list BlobProperties) (s : State) :
  Py.dict_get (app_container_mapping w) app_name = Some info ->
  listed w client (containers info) listing ->
  find_one (fun r => gr_company_id r =? company_id) (generic_collection w) = Some record ->
  connection_details record = Some (first :: others) ->
  Py.truthy (csp_acct_name first) = Some acct ->
  exists r s',
    handle_paloalto_download w client app_name company_id s = (Ok r, s')
    /\ status r = 200%Z
    /\ (r = Empty_content_match
        \/ exists f files, r = jsonify (FilesBody "SAS links generated" (f :: files)) 200).
Proof.
  intros Hinfo Hl Hrec Hcd Hacct.
  destruct (process_all_spec w client (account_name info) (normalize acct)
              (all_objects listing (containers info)) [] s)
    as (extra & newlog & s' & Hrun & _).
  unfold handle_paloalto_download. rewrite Hrec, Hcd, Hacct.
  unfold mapping_item. rewrite Hinfo. unfold bind at 1. unfold ret at 1.
  unfold bind at 1. unfold paloalto_scan.
  rewrite (paloalto_scan_run w client (account_name info) (normalize acct)
             (containers info) listing [] s Hl), Hrun.
  cbn [as_locals app]. destruct extra as [|f files].
  - exists Empty_content_match, s'. split; [reflexivity|]. split; [reflexivity|]. now left.
  - eexists _, s'. split; [reflexivity|]. split; [reflexivity|]. right. now exists f, files.
Qed.

Lemma content_match_handler_always_200_witness :
  exists r s',
    handle_paloalto_download Demo.world_refusing (Demo.client "a") "PALOALTO" "ACME"
      initial_state = (Ok r, s')
    /\ status r = 200%Z
    /\ (r = Empty_content_match
        \/ exists f files, r = jsonify (FilesBody "SAS links generated" (f :: files)) 200).
Proof.
  apply (content_match_handler_always_200 Demo.world_refusing (Demo.client "a")
           "PALOALTO" "ACME"
           {| containers := [Some "CONTAINER_PALOALTO_1"; Some "CONTAINER_PALOALTO_2"];
              account_name := Some "AZURE_STORAGE_ACCOUNT_NAME_PALOALTO" |}
           Demo.acme_record {| csp_acct_name := Some "ACME  " |} [] "ACME  "
           (fun c => match Demo.listing "" c with Ok l => l | Raise _ => [] end)
           initial_state eq_refl).
  - intros c [<-|[<-|[]]]; reflexivity.
  - reflexivity.
  - reflexivity.
  - reflexivity.
Defined.

(** ** The files of an answer *)

(** X12: in an answer with files of the processed-workbook handler, every
    link points at the object named as its file, in a configured container of
    the account of the profile, and that file is a non-empty workbook field
    of the record; in an answer with files of the content-match handler,
    every link points at the object named as its file, in a configured
    container of the account of the profile. *)
Theorem answer_links_point_at_their_files
    (w : World) (client : BlobServiceClient) (app_name company_id : string)
    (s s' : State) (r : Response) (m : string) (files : list FileLink) :
  body r = FilesBody m files ->
  (handle_f5_checkpoint_download w client app_name company_id s = (Ok r, s') ->
   exists info record,
     Py.dict_get (app_container_mapping w) app_name = Some info
     /\ find_one (fun r => gr_company_id r =? company_id) (generic_collection w)
        = Some record
     /\ Forall (fun fl => link_for (account_name info) (containers info) fl
                          /\ In (Some (file fl)) (workbook_fields app_name record)
                          /\ file fl <> "") files)
  /\ (handle_paloalto_download w client app_name company_id s = (Ok r, s') ->
      exists info,
        Py.dict_get (app_container_mapping w) app_name = Some info
        /\ Forall (link_for (account_name info) (containers info)) files).
Proof.
  intros Hbody. split.
  - unfold handle_f5_checkpoint_download.
    destruct (find_one _ _) as [record|] eqn:Hrec;
      [|intros H; apply ret_inv in H; destruct H as [<- _]; discriminate Hbody].
    cbv zeta.
    destruct (keep_truthy (workbook_fields app_name record)) as [|f0 fs] eqn:Hk;
      [intros H; apply ret_inv in H; destruct H as [<- _]; discriminate Hbody|].
    intros H. apply bind_inv in H. destruct H as (info & s1 & Hinfo & H).
    apply mapping_item_inv in Hinfo. destruct Hinfo as [Hinfo ->].
    apply bind_inv in H. destruct H as (res & s2 & Hscan & H).
    apply f5_checkpoint_scan_links in Hscan. destruct Hscan as (links & -> & Hlinks).
    exists info, record. split; [exact Hinfo|]. split; [reflexivity|].
    destruct links as [|l links]; apply ret_inv in H; destruct H as [<- _];
      [discriminate Hbody|].
    cbn [body jsonify] in Hbody. inversion Hbody; subst.
    eapply Forall_impl; [|exact Hlinks].
    intros fl [Hlink Hin]. split; [exact Hlink|].
    rewrite <- Hk in Hin. now apply keep_truthy_spec in Hin.
  - unfold handle_paloalto_download.
    destruct (find_one _ _) as [record|] eqn:Hrec;
      [|intros H; apply ret_inv in H; destruct H as [<- _]; discriminate Hbody].
    cbv zeta.
    destruct (match connection_details record with Some l => l | None => [] end)
      as [|first others];
      [intros H; apply ret_inv in H; destruct H as [<- _]; discriminate Hbody|].
    destruct (Py.truthy (csp_acct_name first)) as [acct|];
      [|intros H; apply ret_inv in H; destruct H as [<- _]; discriminate Hbody].
    intros H. apply bind_inv in H. destruct H as (info & s1 & Hinfo & H).
    apply mapping_item_inv in Hinfo. destruct Hinfo as [Hinfo ->].
    apply bind_inv in H. destruct H as (res & s2 & Hscan & H).
    apply paloalto_scan_links in Hscan. destruct Hscan as (links & -> & Hlinks).
    exists info. split; [exact Hinfo|].
    destruct links as [|l links]; apply ret_inv in H; destruct H as [<- _];
      [discriminate Hbody|].
    cbn [body jsonify] in Hbody. inversion Hbody; subst. exact Hlinks.
Qed.

Lemma answer_links_point_at_their_files_witness :
  exists info,
    Py.dict_get (app_container_mapping Demo.world) "PALOALTO" = Some info
    /\ Forall (link_for (account_name info) (containers info))
         [{| file := "acme-2.csv";
             download_url :=
               "https://AZURE_STORAGE_ACCOUNT_NAME_PALOALTO.blob.core.windows.net/CONTAINER_PALOALTO_2/acme-2.csv?sig-acme-2.csv" |}].
Proof.
  refine (proj2 (answer_links_point_at_their_files Demo.world_refusing
                   (Demo.client "AZURE_STORAGE_ACCOUNT_NAME_PALOALTO") "PALOALTO" "ACME"
                   initial_state
                   {| ticks := 6;
                      log := [(WARNING, "Failed to process blob broken.csv: Error tokenizing data");
                              (WARNING, "Failed to process blob acme-1.csv: AuthorizationFailure");
                              (WARNING, "Failed to process blob acme-1.csv: AuthorizationFailure")] |}
                   (jsonify
                      (FilesBody "SAS links generated"
                         [{| file := "acme-2.csv";
                             download_url :=
                               "https://AZURE_STORAGE_ACCOUNT_NAME_PALOALTO.blob.core.windows.net/CONTAINER_PALOALTO_2/acme-2.csv?sig-acme-2.csv" |}])
                      200)
                   "SAS links generated" _ eq_refl) _).
  vm_compute. reflexivity.
Defined.

Lemma keep_truthy_length fields :
  (List.length (keep_truthy fields) <= List.length fields)%nat.
Proof.
  induction fields as [|f fields IH]; [apply le_n|].
  cbn [keep_truthy List.length]. destruct (Py.truthy f); cbn [List.length]; lia.
Qed.

Lemma filter_length {A : Type} (f : A -> bool) (l : list A) :
  (List.length (filter f l) <= List.length l)%nat.
Proof.
  induction l as [|a l IH]; [apply le_n|].
  cbn [filter]. destruct (f a); cbn [List.length]; lia.
Qed.

(** X13: an answer of the processed-workbook handler lists at most three
    files, and at most two for an application other than F5: at most one per
    non-empty workbook field of the record. *)
Theorem workbook_answer_size
    (w : World) (client : BlobServiceClient) (app_name company_id : string)
    (s s' : State) (r : Response) (m : string) (files : list FileLink) :
  handle_f5_checkpoint_download w client app_name company_id s = (Ok r, s') ->
  body r = FilesBody m files ->
  (1 <= List.length files <= 3)%nat
  /\ (app_name <> "F5" -> (List.length files <= 2)%nat).
Proof.
  unfold handle_f5_checkpoint_download. intros H Hbody.
  destruct (find_one _ _) as [record|] eqn:Hrec;
    [|apply ret_inv in H; destruct H as [<- _]; discriminate Hbody].
  cbv zeta in H.
  destruct (keep_truthy (workbook_fields app_name record)) as [|f0 fs] eqn:Hk;
    [apply ret_inv in H; destruct H as [<- _]; discriminate Hbody|].
  apply bind_inv in H. destruct H as (info & s1 & Hinfo & H).
  apply mapping_item_inv in Hinfo. destruct Hinfo as [Hinfo ->].
  apply bind_inv in H. destruct H as (res & s2 & Hscan & H).
  assert (Happ : app_name = "F5" \/ app_name = "CHECKPOINT").
  { destruct (String.eqb_spec app_name "F5") as [|H1]; [now left|].
    destruct (String.eqb_spec app_name "CHECKPOINT") as [|H2]; [now right|].
    rewrite (workbook_fields_other app_name record H1 H2) in Hk. discriminate Hk. }
  destruct (workbook_containers_single w app_name info Hinfo Happ) as [c Hc].
  rewrite Hc in Hscan.
  destruct (container_blobs w (account_url client) c) as [all|e] eqn:Hlist.
  2:{ exfalso. unfold f5_checkpoint_scan in Hscan. cbn [for_in] in Hscan.
      unfold bind at 1 in Hscan. unfold bind at 1 in Hscan.
      unfold f5_checkpoint_scan_containers in Hscan. cbn [for_in] in Hscan.
      unfold bind at 1 in Hscan. unfold bind at 1 in Hscan.
      unfold list_blobs, bind, call in Hscan. rewrite Hlist in Hscan.
      discriminate Hscan. }
  assert (Hl : listed w client [c] (fun _ => all)).
  { intros c' [<-|[]]. exact Hlist. }
  unfold f5_checkpoint_scan in Hscan.
  rewrite (f5_checkpoint_scan_run w client (account_name info) (fun _ => all) [c]
             (f0 :: fs) [] s Hl) in Hscan.
  destruct (issue_links w client (account_name info)
              (every_match_targets (fun _ => all) [c] (f0 :: fs)) [] s)
    as [[links|e] s3] eqn:Hissue; [|discriminate Hscan].
  cbn [as_locals] in Hscan. inversion Hscan; subst res s3.
  apply issue_links_files in Hissue. cbn [map app] in Hissue.
  rewrite every_match_single, first_match_targets_names in Hissue.
  assert (Hlen : (List.length links <= List.length (workbook_fields app_name record))%nat).
  { rewrite <- (length_map file links), Hissue.
    eapply Nat.le_trans; [apply filter_length|].
    rewrite <- Hk. apply keep_truthy_length. }
  destruct links as [|l links]; apply ret_inv in H; destruct H as [<- _];
    [discriminate Hbody|].
  cbn [body jsonify] in Hbody. inversion Hbody; subst files.
  destruct Happ as [-> | ->]; cbn [workbook_fields String.eqb Ascii.eqb Bool.eqb] in Hlen;
    cbn [List.length] in *; split; try lia; intros Hne; try lia.
  contradiction.
Qed.

Lemma workbook_answer_size_witness :
  (1 <= List.length
          [{| file := "acme-1.csv";
              download_url :=
                "https://AZURE_STORAGE_ACCOUNT_NAME_F5.blob.core.windows.net/CONTAINER_F5/acme-1.csv?sig-acme-1.csv" |}]
     <= 3)%nat
  /\ ("F5" <> "F5" ->
      (List.length
         [{| file := "acme-1.csv";
             download_url :=
               "https://AZURE_STORAGE_ACCOUNT_NAME_F5.blob.core.windows.net/CONTAINER_F5/acme-1.csv?sig-acme-1.csv" |}]
       <= 2)%nat).
Proof.
  apply (workbook_answer_size Demo.world (Demo.client "AZURE_STORAGE_ACCOUNT_NAME_F5")
           "F5" "ACME" initial_state {| ticks := 2; log := [] |}
           (jsonify
              (FilesBody "SAS links generated"
                 [{| file := "acme-1.csv";
                     download_url :=
                       "https://AZURE_STORAGE_ACCOUNT_NAME_F5.blob.core.windows.net/CONTAINER_F5/acme-1.csv?sig-acme-1.csv" |}])
              200)
           "SAS links generated").
  - vm_compute. reflexivity.
  - reflexivity.
Defined.

(** ** The recency choice, object by object *)

Lemma max_from_cons {A : Type} (key : A -> Z) (x y : A) (ys : list A) :
  Py.max_from key x (y :: ys) =
    if (key x <? key (Py.max_from key y ys))%Z then Py.max_from key y ys else x.
Proof.
  revert x y. induction ys as [|z zs IH]; intros x y.
  - reflexivity.
  - change (Py.max_from key x (y :: z :: zs))
      with (Py.max_from key (if (key x <? key y)%Z then y else x) (z :: zs)).
    rewrite (IH (if (key x <? key y)%Z then y else x) z), (IH y z).
    set (M := Py.max_from key z zs).
    destruct (Z.ltb_spec (key x) (key y)); destruct (Z.ltb_spec (key y) (key M));
      repeat match goal with
             | |- context [(?a <? ?b)%Z] => destruct (Z.ltb_spec a b)
             end; try reflexivity; lia.
Qed.

(** The update by a container is the update by its objects, one by one. *)
Lemma latest_update_fold company_id c blobs latest :
  latest_update company_id c blobs latest =
  fold_left (newer company_id) (map (fun b => (c, b)) blobs) latest.
Proof.
  revert latest. induction blobs as [|b blobs IH]; intros latest; [reflexivity|].
  cbn [map fold_left]. rewrite <- IH. clear IH.
  unfold latest_update, newer, name_has. cbn [filter].
  destruct (Py.str_in company_id (name b)); [|reflexivity].
  destruct (filter (fun b0 => Py.str_in company_id (name b0)) blobs) as [|y ys].
  - cbn [Py.max Py.max_from]. destruct latest as [[lb lc]|]; reflexivity.
  - cbn [Py.max]. rewrite max_from_cons.
    set (M := Py.max_from last_modified y ys).
    destruct latest as [[lb lc]|].
    + destruct (Z.ltb_spec (last_modified lb) (last_modified b));
        destruct (Z.ltb_spec (last_modified b) (last_modified M));
        repeat match goal with
               | |- context [(?a <? ?b)%Z] => destruct (Z.ltb_spec a b)
               end; try reflexivity; lia.
    + destruct (Z.ltb_spec (last_modified b) (last_modified M)); reflexivity.
Qed.

Lemma latest_after_fold listing company_id cs latest :
  latest_after listing company_id cs latest =
  fold_left (newer company_id) (all_objects listing cs) latest.
Proof.
  revert latest. induction cs as [|c cs IH]; intros latest; [reflexivity|].
  cbn [latest_after fold_left all_objects flat_map].
  rewrite fold_left_app, <- latest_update_fold. apply IH.
Qed.

Lemma newer_fold_keep company_id b c post :
  (forall c' b', In (c', b') post -> Py.str_in company_id (name b') = true ->
                 (last_modified b' <= last_modified b)%Z) ->
  fold_left (newer company_id) post (Some (b, c)) = Some (b, c).
Proof.
  induction post as [|[c' b'] post IH]; intros Hle; [reflexivity|].
  cbn [fold_left]. unfold newer at 2, name_has.
  destruct (Py.str_in company_id (name b')) eqn:Hm.
  - pose proof (Hle c' b' (or_introl eq_refl) Hm) as Hb.
    destruct (Z.ltb_spec (last_modified b) (last_modified b')); [lia|].
    apply IH. intros c0 b0 Hin. apply (Hle c0 b0). now right.
  - apply IH. intros c0 b0 Hin. apply (Hle c0 b0). now right.
Qed.

Lemma newer_fold_older company_id (T : Z) pre latest :
  (forall c' b', In (c', b') pre -> Py.str_in company_id (name b') = true ->
                 (last_modified b' < T)%Z) ->
  match latest with None => True | Some (lb, _) => (last_modified lb < T)%Z end ->
  match fold_left (newer company_id) pre latest with
  | None => True
  | Some (lb, _) => (last_modified lb < T)%Z
  end.
Proof.
  revert latest. induction pre as [|[c' b'] pre IH]; intros latest Hlt Hlatest;
    [exact Hlatest|].
  cbn [fold_left]. apply IH; [intros c0 b0 Hin; apply (Hlt c0 b0); now right|].
  unfold newer, name_has.
  destruct (Py.str_in company_id (name b')) eqn:Hm; [|exact Hlatest].
  pose proof (Hlt c' b' (or_introl eq_refl) Hm) as Hb.
  destruct latest as [[lb lc]|]; [|exact Hb].
  destruct (Z.ltb_spec (last_modified lb) (last_modified b')); [exact Hb | exact Hlatest].
Qed.

(** X14: the recency scan chooses the first object, in scan order (container
    by container, each in listing order), among those of greatest
    last-modified timestamp whose names contain [company_id]: an object that
    matches, with every matching object before it strictly older and none
    after it newer, is the one chosen, with its container. *)
Theorem recency_first_of_the_latest
    (w : World) (client : BlobServiceClient) (cs : list (option string))
    (company_id : string) (listing : option string -> list BlobProperties) (s : State)
    (pre post : list (option string * BlobProperties))
    (c : option string) (b : BlobProperties) :
  listed w client cs listing ->
  all_objects listing cs = (pre ++ (c, b) :: post)%list ->
  Py.str_in company_id (name b) = true ->
  (forall c' b', In (c', b') pre -> Py.str_in company_id (name b') = true ->
                 (last_modified b' < last_modified b)%Z) ->
  (forall c' b', In (c', b') post -> Py.str_in company_id (name b') = true ->
                 (last_modified b' <= last_modified b)%Z) ->
  latest_scan w client cs company_id s = (Ok (inl (Some (b, c))), s).
Proof.
  intros Hl Hobjects Hm Hpre Hpost.
  unfold latest_scan.
  rewrite (latest_scan_run listing company_id w client cs None s Hl).
  rewrite latest_after_fold, Hobjects, fold_left_app. cbn [fold_left].
  pose proof (newer_fold_older company_id (last_modified b) pre None Hpre I) as Hold.
  replace (newer company_id (fold_left (newer company_id) pre None) (c, b))
    with (Some (b, c)).
  - now rewrite newer_fold_keep.
  - unfold newer at 1, name_has. rewrite Hm.
    destruct (fold_left (newer company_id) pre None) as [[lb lc]|]; [|reflexivity].
    destruct (Z.ltb_spec (last_modified lb) (last_modified b)); [reflexivity | lia].
Qed.

Lemma recency_first_of_the_latest_witness :
  latest_scan Demo.world (Demo.client "a")
    [Some "CONTAINER_PALOALTO_1"; Some "CONTAINER_PALOALTO_2"] "acme" initial_state
  = (Ok (inl (Some (Demo.blob "acme-1.csv" 30, Some "CONTAINER_PALOALTO_1"))),
     initial_state).
Proof.
  apply (recency_first_of_the_latest Demo.world (Demo.client "a")
           [Some "CONTAINER_PALOALTO_1"; Some "CONTAINER_PALOALTO_2"] "acme"
           (fun c => match Demo.listing "" c with Ok l => l | Raise _ => [] end)
           initial_state
           [(Some "CONTAINER_PALOALTO_1", Demo.blob "broken.csv" 5);
            (Some "CONTAINER_PALOALTO_1", Demo.blob "other.csv" 40)]
           [(Some "CONTAINER_PALOALTO_2", Demo.blob "acme-2.csv" 30);
            (Some "CONTAINER_PALOALTO_2", Demo.blob "acme-1.csv" 20)]).
  - intros c [<-|[<-|[]]]; reflexivity.
  - reflexivity.
  - reflexivity.
  - intros c' b' [H|[H|[]]]; inversion H; subst; simpl; discriminate.
  - intros c' b' [H|[H|[]]]; inversion H; subst; simpl; intros _; lia.
Defined.

(** ** Link issuance failures that are not caught *)

(** X15: in the upload-tracking scan, when issuing the link for the first
    matching object raises, the exception leaves the scan as it is: no
    response is built and no later object or container is tried. *)
Theorem upload_tracking_issuance_failure_escapes
    (w : World) (client : BlobServiceClient) (account : option string)
    (uid : string) (listing : option string -> list BlobProperties)
    (pre post : list (option string)) (c : option string)
    (before after : list BlobProperties) (b : BlobProperties)
    (s s1 : State) (e : exn) :
  listed w client (pre ++ c :: post)%list listing ->
  listing c = (before ++ b :: after)%list ->
  (forall c' b', In c' pre -> In b' (listing c') -> Py.str_in uid (name b') = false) ->
  (forall b', In b' before -> Py.str_in uid (name b') = false) ->
  Py.str_in uid (name b) = true ->
  generate_sas_url w client account c (name b) default_expiry_minutes s = (Raise e, s1) ->
  atna_scan w client account (pre ++ c :: post)%list uid s = (Raise e, s1).
Proof.
  intros Hl Hc Hpre Hno Hyes Hgen. unfold atna_scan, bind.
  rewrite (atna_scan_containers_first w client account uid pre c post listing
             before b after s Hl Hpre Hc Hno Hyes).
  unfold atna_answer, bind. rewrite Hgen. reflexivity.
Qed.

Lemma upload_tracking_issuance_failure_escapes_witness :
  atna_scan Demo.world_refusing (Demo.client "a") (Some "a")
    [Some "CONTAINER_PALOALTO_1"; Some "CONTAINER_PALOALTO_2"] "acme" initial_state
  = (Raise (ServiceError "AuthorizationFailure"), {| ticks := 2; log := [] |}).
Proof.
  apply (upload_tracking_issuance_failure_escapes Demo.world_refusing (Demo.client "a")
           (Some "a") "acme"
           (fun c => match Demo.listing "" c with Ok l => l | Raise _ => [] end)
           [] [Some "CONTAINER_PALOALTO_2"] (Some "CONTAINER_PALOALTO_1")
           [Demo.blob "broken.csv" 5; Demo.blob "other.csv" 40] []
           (Demo.blob "acme-1.csv" 30)).
  - intros c [<-|[<-|[]]]; reflexivity.
  - reflexivity.
  - intros c' b' [].
  - intros b' [<-|[<-|[]]]; reflexivity.
  - reflexivity.
  - reflexivity.
Defined.

Lemma in_every_match_targets listing cs files c f :
  In (c, f) (every_match_targets listing cs files) <->
  In f files /\ In c cs /\ has_exact (listing c) f = true.
Proof.
  unfold every_match_targets. rewrite in_flat_map. split.
  - intros (f' & Hf' & Hin). apply in_map_iff in Hin. destruct Hin as (c' & Heq & Hc').
    inversion Heq; subst. apply filter_In in Hc'. tauto.
  - intros (Hf & Hc & Hhas). exists f. split; [exact Hf|].
    apply in_map_iff. exists c. split; [reflexivity|]. apply filter_In. now split.
Qed.

Lemma issue_links_refused w client account targets acc s c f :
  In (c, f) targets ->
  (forall s0, exists e s1,
      generate_sas_url w client account c f default_expiry_minutes s0 = (Raise e, s1)) ->
  exists e s1, issue_links w client account targets acc s = (Raise e, s1).
Proof.
  revert acc s. induction targets as [|[c0 f0] targets IH]; intros acc s Hin Hrefused;
    [contradiction|].
  rewrite issue_links_cons.
  destruct (generate_sas_url w client account c0 f0 default_expiry_minutes s)
    as [[url|e] s1] eqn:Hgen; [|now exists e, s1].
  destruct Hin as [Heq|Hin]; [|now apply IH].
  inversion Heq; subst c0 f0.
  destruct (Hrefused s) as (e & s2 & Hr). congruence.
Qed.

(** X16: in the processed-workbook scan nothing catches a failure of link
    issuance: when some container holds one of the filenames and the link for
    it cannot be issued, the scan raises, and the links already issued for
    other filenames are lost with it. *)
Theorem workbook_issuance_failure_escapes
    (w : World) (client : BlobServiceClient) (account : option string)
    (cs : list (option string)) (files : list string)
    (listing : option string -> list BlobProperties) (s : State)
    (c : option string) (f : string) :
  listed w client cs listing ->
  In f files -> In c cs -> has_exact (listing c) f = true ->
  (forall s0, exists e s1,
      generate_sas_url w client account c f default_expiry_minutes s0 = (Raise e, s1)) ->
  exists e s1, f5_checkpoint_scan w client account cs files s = (Raise e, s1).
Proof.
  intros Hl Hf Hc Hhas Hrefused.
  unfold f5_checkpoint_scan.
  rewrite (f5_checkpoint_scan_run w client account listing cs files [] s Hl).
  destruct (issue_links_refused w client account (every_match_targets listing cs files)
              [] s c f) as (e & s1 & Hraise).
  - apply in_every_match_targets. tauto.
  - exact Hrefused.
  - exists e, s1. rewrite Hraise. reflexivity.
Qed.

Lemma workbook_issuance_failure_escapes_witness :
  exists e s1,
    f5_checkpoint_scan Demo.world_refusing (Demo.client "a") (Some "a")
      [Some "CONTAINER_F5"] ["acme-2.csv"; "acme-1.csv"] initial_state = (Raise e, s1).
Proof.
  apply (workbook_issuance_failure_escapes Demo.world_refusing (Demo.client "a") (Some "a")
           [Some "CONTAINER_F5"] ["acme-2.csv"; "acme-1.csv"]
           (fun c => match Demo.listing "" c with Ok l => l | Raise _ => [] end)
           initial_state (Some "CONTAINER_F5") "acme-1.csv").
  - intros c [<-|[]]; reflexivity.
  - right. now left.
  - now left.
  - reflexivity.
  - intros s0. eexists _, _. rewrite generate_sas_url_run. reflexivity.
Defined.

(** ** The content-match scan, object by object *)

Section ContentMatchAccounts.

Variable w : World.
Variable client : BlobServiceClient.
Variable account : option string.
Variable csp : string.

(** One object whose content matches: its link, for its own container, is
    appended to the result, or the issuer raised and the warning is logged. *)
Lemma paloalto_process_blob_accounts c b acc s :
  exists extra newlog s',
    paloalto_process_blob w client account c csp b acc s = (Ok (acc ++ extra)%list, s')
    /\ log s' = (log s ++ newlog)%list
    /\ (content_matches w client c csp b = true ->
        (exists token,
            In {| file := name b;
                  download_url :=
                    "https://" ++ Py.format account ++ ".blob.core.windows.net/"
                      ++ Py.format c ++ "/" ++ name b ++ "?" ++ token |} extra)
        \/ (exists e s0 s1,
              generate_sas_url w client account c (name b) default_expiry_minutes s0
              = (Raise e, s1)
              /\ In (process_warning b e) newlog)).
Proof.
  rewrite paloalto_process_blob_run. unfold content_matches.
  destruct (blob_content w (account_url client) c (name b)) as [data|e].
  2:{ exists [], [process_warning b e], (warned s b e). rewrite app_nil_r.
      split; [reflexivity|]. split; [reflexivity | discriminate]. }
  destruct (read_csv w data) as [df|e].
  2:{ exists [], [process_warning b e], (warned s b e). rewrite app_nil_r.
      split; [reflexivity|]. split; [reflexivity | discriminate]. }
  destruct (column_has df csp) as [[|]|].
  - destruct (generate_sas_url w client account c (name b) default_expiry_minutes s)
      as [[url|e] s'] eqn:Hgen.
    + exists [{| file := name b; download_url := url |}], [], s'. rewrite app_nil_r.
      split; [reflexivity|]. split; [now apply generate_sas_url_log in Hgen|].
      intros _. left. destruct (generate_sas_url_inv _ _ _ _ _ _ _ _ _ Hgen) as [token ->].
      exists token. now left.
    + exists [], [process_warning b e], (warned s' b e). rewrite app_nil_r.
      split; [reflexivity|].
      split; [cbn [warned log]; now rewrite (generate_sas_url_log _ _ _ _ _ _ _ _ _ Hgen)|].
      intros _. right. exists e, s, s'. split; [exact Hgen | now left].
  - exists [], [], s. rewrite !app_nil_r.
    split; [reflexivity|]. split; [reflexivity | discriminate].
  - exists [], [], s. rewrite !app_nil_r.
    split; [reflexivity|]. split; [reflexivity | discriminate].
Qed.

Lemma process_all_accounts objects acc s :
  exists extra newlog s',
    process_all w client account csp objects acc s = (Ok (acc ++ extra)%list, s')
    /\ log s' = (log s ++ newlog)%list
    /\ (forall c b, In (c, b) objects -> content_matches w client c csp b = true ->
          (exists token,
              In {| file := name b;
                    download_url :=
                      "https://" ++ Py.format account ++ ".blob.core.windows.net/"
                        ++ Py.format c ++ "/" ++ name b ++ "?" ++ token |} extra)
          \/ (exists e s0 s1,
                generate_sas_url w client account c (name b) default_expiry_minutes s0
                = (Raise e, s1)
                /\ In (process_warning b e) newlog)).
Proof.
  revert acc s. induction objects as [|[c b] objects IH]; intros acc s.
  - exists [], [], s. cbn [process_all]. rewrite !app_nil_r.
    split; [reflexivity|]. split; [reflexivity|]. intros c b [].
  - destruct (paloalto_process_blob_accounts c b acc s)
      as (ex1 & nl1 & s1 & Hstep & Hlog1 & Hhead).
    destruct (IH (acc ++ ex1)%list s1) as (ex2 & nl2 & s2 & Hrest & Hlog2 & Htail).
    exists (ex1 ++ ex2)%list, (nl1 ++ nl2)%list, s2.
    split.
    { cbn [process_all]. unfold bind. rewrite Hstep, Hrest, app_assoc. reflexivity. }
    split; [rewrite Hlog2, Hlog1, app_assoc; reflexivity|].
    intros c' b' [Heq|Hin] Hm.
    + inversion Heq; subst c' b'.
      destruct (Hhead Hm) as [[token Ht]|(e & s0 & s3 & Hgen & Hw)].
      * left. exists token. apply in_or_app. now left.
      * right. exists e, s0, s3. split; [exact Hgen|]. apply in_or_app. now left.
    + destruct (Htail c' b' Hin Hm) as [[token Ht]|(e & s0 & s3 & Hgen & Hw)].
      * left. exists token. apply in_or_app. now right.
      * right. exists e, s0, s3. split; [exact Hgen|]. apply in_or_app. now right.
Qed.

End ContentMatchAccounts.

(** X17: when the containers can be listed, the content-match scan completes
    whatever happens on the single objects, and accounts for every object of
    every container: a download failure or a parse failure on the object is
    logged as a warning; an object whose table has no account column leaves
    the result and the log as they are; for an object whose normalized
    account column holds the target, either the result holds a link for that
    object in its own container, or issuing that link raised and the warning
    is logged; and every file of the result is an object whose content
    matches. *)
Theorem content_match_scan_accounts_for_every_object
    (w : World) (client : BlobServiceClient) (account : option string)
    (cs : list (option string)) (csp : string)
    (listing : option string -> list BlobProperties) (s : State) :
  listed w client cs listing ->
  exists files newlog s',
    paloalto_scan w client account cs csp s = (Ok (inl files), s')
    /\ log s' = (log s ++ newlog)%list
    /\ (forall c b, In c cs -> In b (listing c) ->
          (forall e, blob_content w (account_url client) c (name b) = Raise e ->
                     In (process_warning b e) newlog)
          /\ (forall data e, blob_content w (account_url client) c (name b) = Ok data ->
                             read_csv w data = Raise e ->
                             In (process_warning b e) newlog)
          /\ (forall data df, blob_content w (account_url client) c (name b) = Ok data ->
                              read_csv w data = Ok df ->
                              column_has df csp = None ->
                              forall acc s0,
                                paloalto_process_blob w client account c csp b acc s0
                                = (Ok acc, s0))
          /\ (forall data df, blob_content w (account_url client) c (name b) = Ok data ->
                              read_csv w data = Ok df ->
                              column_has df csp = Some true ->
                              (exists token,
                                  In {| file := name b;
                                        download_url :=
                                          "https://" ++ Py.format account
                                            ++ ".blob.core.windows.net/"
                                            ++ Py.format c ++ "/" ++ name b
                                            ++ "?" ++ token |} files)
                              \/ (exists e s0 s1,
                                    generate_sas_url w client account c (name b)
                                      default_expiry_minutes s0 = (Raise e, s1)
                                    /\ In (process_warning b e) newlog)))
    /\ (forall fl, In fl files ->
          exists c b, In c cs /\ In b (listing c)
                      /\ content_matches w client c csp b = true
                      /\ file fl = name b).
Proof.
  intros Hl.
  destruct (process_all_spec w client account csp (all_objects listing cs) [] s)
    as (extra & newlog & s' & Hrun & Hlog & Hobj & Hsound).
  destruct (process_all_accounts w client account csp (all_objects listing cs) [] s)
    as (extra' & newlog' & s'' & Hrun' & Hlog' & Hacc).
  rewrite Hrun in Hrun'. inversion Hrun' as [[Hextra Hs]]. subst s''.
  cbn [app] in Hextra. subst extra'.
  rewrite Hlog in Hlog'. apply app_inv_head in Hlog'. subst newlog'.
  exists extra, newlog, s'.
  split.
  { unfold paloalto_scan.
    rewrite (paloalto_scan_run w client account csp cs listing [] s Hl).
    rewrite Hrun. reflexivity. }
  split; [exact Hlog|]. split.
  - intros c b Hc Hb.
    pose proof (proj2 (in_all_objects listing cs c b) (conj Hc Hb)) as Hin.
    destruct (Hobj c b Hin) as (H1 & H2 & _).
    split; [exact H1|]. split; [exact H2|]. split.
    + intros data df Hd Hdf Hcol acc s0.
      rewrite paloalto_process_blob_run, Hd, Hdf, Hcol. reflexivity.
    + intros data df Hd Hdf Hcol. apply (Hacc c b Hin).
      unfold content_matches. rewrite Hd, Hdf, Hcol. reflexivity.
  - intros fl Hfl. destruct (Hsound fl Hfl) as (c & b & Hin & Hm & Hf).
    apply in_all_objects in Hin. destruct Hin as [Hc Hb].
    exists c, b. repeat split; assumption.
Qed.

Lemma content_match_scan_accounts_for_every_object_witness :
  let cs := [Some "CONTAINER_PALOALTO_1"; Some "CONTAINER_PALOALTO_2"] in
  let listing := fun c => match Demo.listing "" c with Ok l => l | Raise _ => [] end in
  let w := Demo.world_refusing in
  let client := Demo.client "a" in
  let account := Some "a" in
  let csp := normalize "ACME  " in
  exists files newlog s',
    paloalto_scan w client account cs csp initial_state = (Ok (inl files), s')
    /\ log s' = (log initial_state ++ newlog)%list
    /\ (forall c b, In c cs -> In b (listing c) ->
          (forall e, blob_content w (account_url client) c (name b) = Raise e ->
                     In (process_warning b e) newlog)
          /\ (forall data e, blob_content w (account_url client) c (name b) = Ok data ->
                             read_csv w data = Raise e ->
                             In (process_warning b e) newlog)
          /\ (forall data df, blob_content w (account_url client) c (name b) = Ok data ->
                              read_csv w data = Ok df ->
                              column_has df csp = None ->
                              forall acc s0,
                                paloalto_process_blob w client account c csp b acc s0
                                = (Ok acc, s0))
          /\ (forall data df, blob_content w (account_url client) c (name b) = Ok data ->
                              read_csv w data = Ok df ->
                              column_has df csp = Some true ->
                              (exists token,
                                  In {| file := name b;
                                        download_url :=
                                          "https://" ++ Py.format account
                                            ++ ".blob.core.windows.net/"
                                            ++ Py.format c ++ "/" ++ name b
                                            ++ "?" ++ token |} files)
                              \/ (exists e s0 s1,
                                    generate_sas_url w client account c (name b)
                                      default_expiry_minutes s0 = (Raise e, s1)
                                    /\ In (process_warning b e) newlog)))
    /\ (forall fl, In fl files ->
          exists c b, In c cs /\ In b (listing c)
                      /\ content_matches w client c csp b = true
                      /\ file fl = name b).
Proof.
  intros cs listing w client account csp.
  apply (content_match_scan_accounts_for_every_object w client account cs csp listing
           initial_state).
  intros c [<-|[<-|[]]]; reflexivity.
Defined.
